(** * Bootstrap agent (app.py): configuration, artifact download, service launch

    A shallow embedding of [app.py].  Python [str] values are modelled as
    [string] (code points below 256), [int] as [Z], [pathlib.Path] as a
    record of a root and a list of segments (POSIX flavour: the script
    relies on [nohup] and [/dev/null]), [os.environ] as a finite map, and
    the effectful functions as state-and-exception passing functions over a
    [World] that holds the file system, the remote server, the process table
    and the sequence of effects performed so far. *)

From Stdlib Require Import ZArith String Ascii List Bool Lia DecimalString.
From Stdlib Require Import DecimalPos.
From stdpp Require Import base option list gmap strings.

Open Scope string_scope.
Open Scope list_scope.
Open Scope Z_scope.

(** ** Python strings *)

Module PyStr.

(** [c.lower()] for one code point below 256: the ASCII capitals and the
    Latin-1 capitals (U+00C0..U+00DE except the multiplication sign). *)
Definition lower_char (c : ascii) : ascii :=
  let n := N_of_ascii c in
  if ((65 <=? n) && (n <=? 90) || (192 <=? n) && (n <=? 214)
      || (216 <=? n) && (n <=? 222))%N
  then ascii_of_N (n + 32) else c.

(** [s.lower()] *)
Fixpoint lower (s : string) : string :=
  match s with
  | EmptyString => EmptyString
  | String c s' => String (lower_char c) (lower s')
  end.

(** [needle in hay] *)
Fixpoint contains (needle hay : string) : bool :=
  String.prefix needle hay ||
  match hay with
  | EmptyString => false
  | String _ hay' => contains needle hay'
  end.

(** Truth value of a string: [bool(s)]. *)
Definition truthy (s : string) : bool :=
  match s with EmptyString => false | _ => true end.

(** Characters that [int()] skips around a number: [str.isspace()] below
    256. *)
Definition is_space (c : ascii) : bool :=
  let n := N_of_ascii c in
  ((9 <=? n) && (n <=? 13) || (28 <=? n) && (n <=? 32)
   || (n =? 133) || (n =? 160))%N.

Definition is_digit (c : ascii) : bool :=
  let n := N_of_ascii c in ((48 <=? n) && (n <=? 57))%N.

Definition digit_val (c : ascii) : Z := Z.of_N (N_of_ascii c) - 48.

Fixpoint lstrip (s : string) : string :=
  match s with
  | String c s' => if is_space c then lstrip s' else s
  | EmptyString => EmptyString
  end.

Fixpoint rstrip (s : string) : string :=
  match s with
  | EmptyString => EmptyString
  | String c s' =>
      let r := rstrip s' in
      if is_space c && negb (truthy r) then EmptyString else String c r
  end.

Definition strip (s : string) : string := rstrip (lstrip s).

(** Where the scanner of a decimal literal stands: nothing read yet, just
    after a digit, just after an underscore. *)
Inductive lit_state := LitStart | LitDigit | LitUnderscore.

(** Digits with single underscores between them, as [int()] accepts. *)
Fixpoint digits (st : lit_state) (acc : Z) (s : string) : option Z :=
  match s with
  | EmptyString => match st with LitDigit => Some acc | _ => None end
  | String c s' =>
      if is_digit c then digits LitDigit (10 * acc + digit_val c) s'
      else if Ascii.eqb c "_"
           then match st with
                | LitDigit => digits LitUnderscore acc s'
                | _ => None
                end
           else None
  end.

(** [int(s)] for a string; [None] stands for [ValueError]. *)
Definition int (s : string) : option Z :=
  match strip s with
  | String "+" s' => digits LitStart 0 s'
  | String "-" s' => Z.opp <$> digits LitStart 0 s'
  | s' => digits LitStart 0 s'
  end.

(** [str(n)] for an integer. *)
Definition of_int (n : Z) : string := NilZero.string_of_int (Z.to_int n).

(** [sep.join(l)] *)
Fixpoint join (sep : string) (l : list string) : string :=
  match l with
  | [] => EmptyString
  | [x] => x
  | x :: l' => x +:+ sep +:+ join sep l'
  end.

End PyStr.

(** ** pathlib.PurePosixPath *)

Record Path := mkPath { p_root : string; p_segs : list string }.

#[global] Instance Path_eq_dec : EqDecision Path.
Proof. solve_decision. Defined.

#[global] Instance Path_countable : Countable Path.
Proof.
  refine (inj_countable' (fun p => (p_root p, p_segs p))
                         (fun t => mkPath t.1 t.2) _).
  by intros [].
Defined.

Module PurePath.

(** [s.split('/')] *)
Fixpoint split_slash (s : string) : list string :=
  match s with
  | EmptyString => [EmptyString]
  | String c s' =>
      match split_slash s' with
      | h :: t => if Ascii.eqb c "/" then EmptyString :: h :: t
                  else String c h :: t
      | [] => []
      end
  end.

(** The segments kept when a path string is parsed: empty ones and [.] are
    dropped. *)
Definition segments (s : string) : list string :=
  filter (fun x => x ≠ EmptyString ∧ x ≠ ".") (split_slash s).

Fixpoint leading_slashes (s : string) : nat :=
  match s with
  | String "/" s' => S (leading_slashes s')
  | _ => O
  end.

(** Root of a POSIX path: none, a single slash, or exactly two slashes. *)
Definition root_of (s : string) : string :=
  match leading_slashes s with
  | O => EmptyString
  | 2%nat => "//"
  | _ => "/"
  end.

(** [Path(s)] *)
Definition of_str (s : string) : Path := mkPath (root_of s) (segments s).

(** [p / s]: an absolute right operand replaces the left one. *)
Definition joinpath (p : Path) (s : string) : Path :=
  if PyStr.truthy (root_of s) then of_str s
  else mkPath (p_root p) (p_segs p ++ segments s).

(** [str(p)] *)
Definition to_str (p : Path) : string :=
  match p_root p, p_segs p with
  | EmptyString, [] => "."
  | r, l => r +:+ PyStr.join "/" l
  end.

(** [p.name] *)
Definition name (p : Path) : string := List.last (p_segs p) EmptyString.

End PurePath.

Notation "p // s" := (PurePath.joinpath p s) (at level 40, left associativity).

(** ** Exceptions and outcomes *)

(** The exception classes the script can meet; all derive from
    [Exception]. *)
Inductive exn :=
| ValueError (literal : string)
| HTTPStatusError (status_code : Z)
| ConnectError
| TimeoutException
| ReadError
| OSError (msg : string).

(** [str(e)] as used in log messages. *)
Definition exn_str (e : exn) : string :=
  match e with
  | ValueError s => "invalid literal for int() with base 10: " +:+ s
  | HTTPStatusError c => "HTTP status " +:+ PyStr.of_int c
  | ConnectError => "All connection attempts failed"
  | TimeoutException => "timed out"
  | ReadError => "read error"
  | OSError m => m
  end.

(** Outcome of running a piece of the script: a value, a raised exception,
    or [Unfinished] when the given number of loop iterations has been used
    up and the code is still running. *)
Inductive outcome (A : Type) :=
| Ok (a : A)
| Raise (e : exn)
| Unfinished.
Arguments Ok {A} a.
Arguments Raise {A} e.
Arguments Unfinished {A}.

(** ** Config *)

Record Config := mkConfig {
  UPLOAD_URL : string;
  PROJECT_URL : string;
  AUTO_ACCESS : bool;
  FILE_PATH : Path;
  SUB_PATH : string;
  UUID : string;
  NEZHA_SERVER : string;
  NEZHA_PORT : string;
  NEZHA_KEY : string;
  ARGO_DOMAIN : string;
  ARGO_AUTH : string;
  NAME : string;
  PORT : Z;
  SUB_FILE : Path;
  LIST_FILE : Path;
  CONFIG_FILE : Path;
  BOOT_LOG_FILE : Path;
  NPM_BIN : Path;
  PHP_BIN : Path;
  WEB_BIN : Path;
  BOT_BIN : Path
}.

(** [os.environ.get(key, default)] *)
Definition environ_get (environ : gmap string string) (key dflt : string)
  : string :=
  default dflt (environ !! key).

(** [x or y] where [x] is the result of [os.environ.get(key)]: [None] and
    the empty string are false. *)
Definition or_else {A : Type} (x : option string) (inj : string -> A) (y : A)
  : A :=
  match x with
  | Some s => if PyStr.truthy s then inj s else y
  | None => y
  end.

(** [os.environ.get('SERVER_PORT') or os.environ.get('PORT') or 3000]:
    a string taken from the environment or the integer literal. *)
Definition port_input (environ : gmap string string) : string + Z :=
  or_else (environ !! "SERVER_PORT") inl
    (or_else (environ !! "PORT") inl (inr 3000)).

(** [int(v)] for a value that is a string or already an integer. *)
Definition py_int (v : string + Z) : outcome Z :=
  match v with
  | inl s => match PyStr.int s with
             | Some n => Ok n
             | None => Raise (ValueError s)
             end
  | inr n => Ok n
  end.

(** The class body of [Config] (the defaults are computed from the
    environment when the class statement runs), followed by [Config()] and
    its [__post_init__]. *)
Definition Config_new (environ : gmap string string) : outcome Config :=
  let file_path := PurePath.of_str (environ_get environ "FILE_PATH" "./.cache") in
  match py_int (port_input environ) with
  | Ok port =>
      Ok {| UPLOAD_URL := environ_get environ "UPLOAD_URL" "";
            PROJECT_URL := environ_get environ "PROJECT_URL" "";
            AUTO_ACCESS :=
              bool_decide
                (PyStr.lower (environ_get environ "AUTO_ACCESS" "false") = "true");
            FILE_PATH := file_path;
            SUB_PATH := environ_get environ "SUB_PATH" "sub";
            UUID := environ_get environ "UUID"
                      "ff24ebc4-8b2f-4eae-a40b-0fe47473541f";
            NEZHA_SERVER := environ_get environ "NEZHA_SERVER" "";
            NEZHA_PORT := environ_get environ "NEZHA_PORT" "";
            NEZHA_KEY := environ_get environ "NEZHA_KEY" "";
            ARGO_DOMAIN := environ_get environ "ARGO_DOMAIN" "";
            ARGO_AUTH := environ_get environ "ARGO_AUTH" "";
            NAME := environ_get environ "NAME" "Vls";
            PORT := port;
            SUB_FILE := file_path // "sub.txt";
            LIST_FILE := file_path // "list.txt";
            CONFIG_FILE := file_path // "config.json";
            BOOT_LOG_FILE := file_path // "boot.log";
            NPM_BIN := file_path // "npm";
            PHP_BIN := file_path // "php";
            WEB_BIN := file_path // "web";
            BOT_BIN := file_path // "bot" |}
  | Raise e => Raise e
  | Unfinished => Unfinished
  end.

(** ** The world outside the script *)

(** An entry of the file system: a directory, or a regular file with its
    bytes and permission bits. *)
Inductive node :=
| Dir
| Reg (data : string) (mode : Z).

(** How the body of an HTTP response ends after its chunks. *)
Inductive stream_end := StreamComplete | StreamReadError | StreamTimeout.

(** What the remote server does for a GET on a URL. *)
Inductive http_reply :=
| NoConnection
| ConnectTimeout
| Response (status_code : Z) (chunks : list string) (fin : stream_end).

(** Operating-system calls that may be refused. *)
Inductive syscall :=
| SysMkdir (p : Path)
| SysOpen (p : Path)
| SysWrite (p : Path) (k : nat)
| SysSpawn (cmdline : string).

Inductive level := INFO | ERROR.

(** The body of the thread started by [main]: [run_server], an [HTTPServer]
    bound to an address and served forever. *)
Record thread_body := mkServer { bind_host : string; bind_port : Z }.

(** The effects of the main flow, in the order they happen. *)
Inductive event :=
| Log (lvl : level) (msg : string)
| Mkdir (p : Path)
| HttpGet (url : string) (timeout : Z)
| OpenWrite (p : Path)
| Write (p : Path) (chunk : string)
| Chmod (p : Path) (mode : Z)
| SpawnShell (pid : nat) (cmdline : string)
| WaitPid (pid : nat)
| ThreadStart (daemon : bool) (body : thread_body)
| Sleep (seconds : Z).

Record World := mkWorld {
  environ : gmap string string;      (* os.environ *)
  machine : string;                  (* platform.machine() *)
  remote : string -> http_reply;     (* the artifact server *)
  fault : syscall -> option string;  (* calls the system refuses, with errno text *)
  shell_status : string -> Z;        (* exit status of a shell given its command line *)
  umask : Z;
  fs : gmap Path node;
  procs : list (nat * string);       (* shells spawned so far: pid, command line *)
  threads : list thread_body;        (* daemon threads started so far *)
  trace : list event
}.

Definition with_fs (f : gmap Path node -> gmap Path node) (w : World) : World :=
  mkWorld (environ w) (machine w) (remote w) (fault w) (shell_status w)
          (umask w)
          (f (fs w)) (procs w) (threads w) (trace w).

Definition with_procs (f : list (nat * string) -> list (nat * string))
  (w : World) : World :=
  mkWorld (environ w) (machine w) (remote w) (fault w) (shell_status w)
          (umask w)
          (fs w) (f (procs w)) (threads w) (trace w).

Definition with_threads (f : list thread_body -> list thread_body)
  (w : World) : World :=
  mkWorld (environ w) (machine w) (remote w) (fault w) (shell_status w)
          (umask w)
          (fs w) (procs w) (f (threads w)) (trace w).

Definition with_trace (f : list event -> list event) (w : World) : World :=
  mkWorld (environ w) (machine w) (remote w) (fault w) (shell_status w)
          (umask w)
          (fs w) (procs w) (threads w) (f (trace w)).

(** ** Computations: state and exceptions *)

Definition M (A : Type) : Type := World -> outcome A * World.

#[global] Instance M_ret : MRet M := fun A a w => (Ok a, w).

#[global] Instance M_bind : MBind M := fun A B f m w =>
  match m w with
  | (Ok a, w') => f a w'
  | (Raise e, w') => (Raise e, w')
  | (Unfinished, w') => (Unfinished, w')
  end.

Definition raise {A : Type} (e : exn) : M A := fun w => (Raise e, w).

Definition unfinished {A : Type} : M A := fun w => (Unfinished, w).

(** [try: body / except Exception as e: handler(e)] *)
Definition try_except {A : Type} (body : M A) (handler : exn -> M A) : M A :=
  fun w =>
    match body w with
    | (Raise e, w') => handler e w'
    | r => r
    end.

Definition gets {A : Type} (f : World -> A) : M A := fun w => (Ok (f w), w).

Definition modify (f : World -> World) : M unit := fun w => (Ok tt, f w).

Definition emit (e : event) : M unit := modify (with_trace (fun t => t ++ [e])).

Definition logging_info (msg : string) : M unit := emit (Log INFO msg).
Definition logging_error (msg : string) : M unit := emit (Log ERROR msg).

(** A system call goes through unless the system refuses it. *)
Definition sys (c : syscall) : M unit :=
  refused ← gets (fun w => fault w c);
  match refused with
  | Some msg => raise (OSError msg)
  | None => mret tt
  end.

(** [platform.machine()] *)
Definition platform_machine : M string := gets machine.

(** The current directory and the root always exist. *)
Definition exists_in (w : World) (p : Path) : bool :=
  bool_decide (p_segs p = []) || bool_decide (is_Some (fs w !! p)).

Definition is_dir (w : World) (p : Path) : bool :=
  bool_decide (p_segs p = []) ||
  match fs w !! p with Some Dir => true | _ => false end.

(** [p.exists()] *)
Definition Path_exists (p : Path) : M bool := gets (fun w => exists_in w p).

(** [p.mkdir(exist_ok=True)] *)
Definition Path_mkdir_exist_ok (p : Path) : M unit :=
  d ← gets (fun w => is_dir w p);
  if d : bool then mret tt
  else
    n ← gets (fun w => fs w !! p);
    match n with
    | Some _ => raise (OSError "File exists")
    | None =>
        sys (SysMkdir p) ;;
        emit (Mkdir p) ;;
        modify (with_fs (insert p Dir))
    end.

(** Permission bits of a file created by [open]: [0o666 & ~umask]. *)
Definition creation_mode (w : World) : Z := Z.land 438 (Z.lnot (umask w)).

(** The entry left by [open(p, 'wb')]: an empty file, with the mode it had
    or the creation mode. *)
Definition truncated (w : World) (p : Path) : node :=
  match fs w !! p with
  | Some (Reg _ m) => Reg EmptyString m
  | _ => Reg EmptyString (creation_mode w)
  end.

(** [open(p, 'wb')]: the file is created, or truncated keeping its mode. *)
Definition open_wb (p : Path) : M unit :=
  d ← gets (fun w => is_dir w p);
  if d : bool then raise (OSError "Is a directory")
  else
    sys (SysOpen p) ;;
    emit (OpenWrite p) ;;
    modify (fun w => with_fs (insert p (truncated w p)) w).

Definition append_data (chunk : string) (n : node) : node :=
  match n with
  | Reg d m => Reg (d +:+ chunk) m
  | Dir => Dir
  end.

(** [f.write(chunk)], the [k]-th write on the open file. *)
Definition file_write (p : Path) (k : nat) (chunk : string) : M unit :=
  sys (SysWrite p k) ;;
  emit (Write p chunk) ;;
  modify (with_fs (alter (append_data chunk) p)).

Definition set_mode (mode : Z) (n : node) : node :=
  match n with
  | Reg d _ => Reg d mode
  | Dir => Dir
  end.

(** [p.chmod(mode)] *)
Definition Path_chmod (p : Path) (mode : Z) : M unit :=
  emit (Chmod p mode) ;;
  modify (with_fs (alter (set_mode mode) p)).

(** [for x in l: body(x)] *)
Fixpoint for_each {A : Type} (l : list A) (body : A -> M unit) : M unit :=
  match l with
  | [] => mret tt
  | x :: l' => body x ;; for_each l' body
  end.

(** [await asyncio.gather] over a list of coroutines.  The coroutines run on one event loop;
    the results come back in argument order.  The model runs them to
    completion one after the other in that order (each coroutine of the
    script works on a path or a process of its own).  A coroutine that
    raises does not stop the others; the first exception is raised to the
    caller once they have run. *)
Fixpoint gather {A : Type} (tasks : list (M A)) : M (list A) :=
  match tasks with
  | [] => mret []
  | t :: ts => fun w =>
      let (r, w1) := t w in
      let (rs, w2) := gather ts w1 in
      (match r, rs with
       | Ok a, Ok l => Ok (a :: l)
       | Raise e, _ => Raise e
       | Ok _, Raise e => Raise e
       | _, _ => Unfinished
       end, w2)
  end.

(** ** download_file *)

(** [client.stream('GET', url, timeout=...)]: the status line and headers
    have arrived when the context is entered. *)
Definition client_stream_GET (url : string) (timeout : Z)
  : M (Z * list string * stream_end) :=
  emit (HttpGet url timeout) ;;
  reply ← gets (fun w => remote w url);
  match reply with
  | NoConnection => raise ConnectError
  | ConnectTimeout => raise TimeoutException
  | Response st chunks fin => mret (st, chunks, fin)
  end.

(** [response.raise_for_status()], as httpx documents it: any status but
    2xx raises [HTTPStatusError]. *)
Definition raise_for_status (status_code : Z) : M unit :=
  if (200 <=? status_code) && (status_code <=? 299) then mret tt
  else raise (HTTPStatusError status_code).

(** [async for chunk in response.aiter_bytes(): await f.write(chunk)] *)
Fixpoint write_chunks (p : Path) (k : nat) (chunks : list string)
  (fin : stream_end) : M unit :=
  match chunks with
  | c :: cs => file_write p k c ;; write_chunks p (S k) cs fin
  | [] => match fin with
          | StreamComplete => mret tt
          | StreamReadError => raise ReadError
          | StreamTimeout => raise TimeoutException
          end
  end.

(** The [try] block of [download_file]. *)
Definition stream_to_file (file_url : string) (target_path : Path) : M bool :=
  '(status_code, chunks, fin) ← client_stream_GET file_url 60;
  raise_for_status status_code ;;
  open_wb target_path ;;
  write_chunks target_path 0 chunks fin ;;
  logging_info ("Successfully downloaded " +:+ PurePath.to_str target_path) ;;
  mret true.

(** Its two [except] clauses, followed by the final [return False]. *)
Definition download_failed (file_name : string) (e : exn) : M bool :=
  match e with
  | HTTPStatusError status_code =>
      logging_error ("Download failed for " +:+ file_name +:+ ": HTTP "
                     +:+ PyStr.of_int status_code)
  | _ =>
      logging_error ("An unexpected error occurred while downloading "
                     +:+ file_name +:+ ": " +:+ exn_str e)
  end ;;
  mret false.

Definition download_file (file_name file_url : string) (target_path : Path)
  : M bool :=
  logging_info ("Downloading " +:+ file_name +:+ " from " +:+ file_url +:+ "...") ;;
  try_except (stream_to_file file_url target_path) (download_failed file_name).

(** ** setup_environment *)

Definition setup_environment (config : Config) : M unit :=
  logging_info "Setting up environment..." ;;
  Path_mkdir_exist_ok (FILE_PATH config).

(** ** run_background_process *)

(** [asyncio.create_subprocess_shell(cmdline)]: the shell is forked at
    once and gets a process id not used before. *)
Definition create_subprocess_shell (cmdline : string) : M nat :=
  sys (SysSpawn cmdline) ;;
  pid ← gets (fun w => S (length (procs w)));
  modify (with_procs (fun l => l ++ [(pid, cmdline)])) ;;
  emit (SpawnShell pid cmdline) ;;
  mret pid.

(** [process.wait()] : waits for that process and gives its exit status. *)
Definition process_wait (pid : nat) : M Z :=
  emit (WaitPid pid) ;;
  gets (fun w => match list_find (fun pc => pc.1 = pid) (procs w) with
                 | Some (_, (_, cmdline)) => shell_status w cmdline
                 | None => 0
                 end).

Definition run_background_process (name command : string) : M unit :=
  logging_info ("Starting background process: " +:+ name) ;;
  process ← create_subprocess_shell ("nohup " +:+ command +:+ " >/dev/null 2>&1 &");
  process_wait process ;;
  logging_info (name +:+ " process started.").

(** ** start_services *)

(** [d[k] = v] on a dict kept in insertion order. *)
Fixpoint dict_setitem (d : list (Path * string)) (k : Path) (v : string)
  : list (Path * string) :=
  match d with
  | [] => [(k, v)]
  | (k', v') :: d' =>
      if decide (k' = k) then (k', v) :: d' else (k', v') :: dict_setitem d' k v
  end.

Definition architecture (machine_name : string) : string :=
  if PyStr.contains "aarch64" (PyStr.lower machine_name) then "arm" else "amd".

Definition artifact_url (arch key : string) : string :=
  "https://" +:+ arch +:+ "64.ssss.nyc.mn/" +:+ key.

Definition files_to_download (config : Config) (arch : string)
  : list (Path * string) :=
  let files :=
    dict_setitem
      (dict_setitem [] (WEB_BIN config) (artifact_url arch "web"))
      (BOT_BIN config) (artifact_url arch "2go") in
  if PyStr.truthy (NEZHA_SERVER config) && PyStr.truthy (NEZHA_KEY config)
  then
    if PyStr.truthy (NEZHA_PORT config)
    then dict_setitem files (NPM_BIN config) (artifact_url arch "agent")
    else dict_setitem files (PHP_BIN config) (artifact_url arch "v1")
  else files.

(** [download_tasks]: one [download_file] coroutine per item of the dict. *)
Definition download_tasks (files : list (Path * string)) : list (M bool) :=
  map (fun '(path, url) => download_file (PurePath.name path) url path) files.

(** Body of the loop over [files_to_download.keys()]. *)
Definition grant_execute (file_path : Path) : M unit :=
  present ← Path_exists file_path;
  if present : bool
  then Path_chmod file_path 509 ;;
       logging_info ("Set execute permission for " +:+ PurePath.to_str file_path)
  else mret tt.

(** The command lines of the three services. *)
Definition web_command (config : Config) : string :=
  PurePath.to_str (WEB_BIN config) +:+ " -c " +:+ PurePath.to_str (CONFIG_FILE config).
Definition php_command (config : Config) : string :=
  PurePath.to_str (PHP_BIN config) +:+ " -c 'config.yaml'".
Definition bot_command (config : Config) : string :=
  PurePath.to_str (BOT_BIN config)
  +:+ " tunnel --edge-ip-version auto --no-autoupdate --url http://localhost:"
  +:+ PyStr.of_int (PORT config).

(** The list [tasks]: the web service, the agent when [PHP_BIN] exists, the
    tunnel. *)
Definition launch_tasks (config : Config) (php_present : bool) : list (M unit) :=
  [run_background_process "web" (web_command config)]
  ++ (if php_present
      then [run_background_process "php" (php_command config)]
      else [])
  ++ [run_background_process "bot" (bot_command config)].

Definition start_services (config : Config) : M unit :=
  machine_name ← platform_machine;
  let files := files_to_download config (architecture machine_name) in
  results ← gather (download_tasks files);
  if negb (forallb id results)
  then logging_error "One or more file downloads failed. Aborting."
  else
    for_each (map fst files) grant_execute ;;
    logging_info "Configurations generated." ;;
    php_present ← Path_exists (PHP_BIN config);
    gather (launch_tasks config php_present) ;;
    logging_info "All services have been started.".

(** ** run_server and main *)

(** [run_server]: [HTTPServer(('0.0.0.0', config.PORT), RequestHandler)]
    followed by [serve_forever()]. *)
Definition run_server (config : Config) : thread_body :=
  {| bind_host := "0.0.0.0"; bind_port := PORT config |}.

(** [Thread(target=body, daemon=daemon).start()] *)
Definition Thread_start (daemon : bool) (body : thread_body) : M unit :=
  modify (with_threads (fun l => l ++ [body])) ;;
  emit (ThreadStart daemon body).

(** [while True: await asyncio.sleep(3600)], cut after [fuel] rounds. *)
Fixpoint idle (fuel : nat) : M unit :=
  match fuel with
  | O => unfinished
  | S n => emit (Sleep 3600) ;; idle n
  end.

Definition main (config : Config) (fuel : nat) : M unit :=
  setup_environment config ;;
  Thread_start true (run_server config) ;;
  start_services config ;;
  logging_info "Extracting domain and generating subscription..." ;;
  logging_info "Setup complete. Application is running." ;;
  idle fuel.


(** ** Vocabulary of the statements *)



(** The configuration built from an environment that sets nothing. *)
Definition default_config : Config :=
  let d := PurePath.of_str "./.cache" in
  {| UPLOAD_URL := ""; PROJECT_URL := ""; AUTO_ACCESS := false;
     FILE_PATH := d; SUB_PATH := "sub";
     UUID := "ff24ebc4-8b2f-4eae-a40b-0fe47473541f";
     NEZHA_SERVER := ""; NEZHA_PORT := ""; NEZHA_KEY := "";
     ARGO_DOMAIN := ""; ARGO_AUTH := ""; NAME := "Vls"; PORT := 3000;
     SUB_FILE := d // "sub.txt"; LIST_FILE := d // "list.txt";
     CONFIG_FILE := d // "config.json"; BOOT_LOG_FILE := d // "boot.log";
     NPM_BIN := d // "npm"; PHP_BIN := d // "php";
     WEB_BIN := d // "web"; BOT_BIN := d // "bot" |}.

(** The configuration of an environment whose port is well formed. *)
Definition config_of (environ : gmap string string) : Config :=
  match Config_new environ with
  | Ok config => config
  | _ => default_config
  end.

(** The download dict of a run. *)
Definition files_of (config : Config) (w : World) : list (Path * string) :=
  files_to_download config (architecture (machine w)).

(** Every URL of a download dict starts with the given text. *)
Definition urls_start_with (pre : string) (files : list (Path * string)) : Prop :=
  Forall (fun pu => String.prefix pre pu.2 = true) files.

(** The bytes of a response body: its chunks one after the other. *)
Definition body (chunks : list string) : string :=
  foldr String.append EmptyString chunks.

(** What it takes for a download to go through: a complete 2xx response,
    a destination that can be opened for writing, and no refused write. *)
Definition stream_succeeds (w : World) (url : string) (target : Path) : Prop :=
  exists st chunks,
    remote w url = Response st chunks StreamComplete /\
    200 <= st <= 299 /\
    is_dir w target = false /\
    fault w (SysOpen target) = None /\
    forall k, (k < length chunks)%nat -> fault w (SysWrite target k) = None.

(** Owner-execute bit of a regular file. *)
Definition owner_exec (w : World) (p : Path) : bool :=
  match fs w !! p with
  | Some (Reg _ mode) => Z.testbit mode 6
  | _ => false
  end.

(** The shell command line built by [run_background_process]. *)
Definition launch_line (command : string) : string :=
  "nohup " +:+ command +:+ " >/dev/null 2>&1 &".

(** The shell command lines of [launch_tasks], in order. *)
Definition launch_lines (config : Config) (php_present : bool) : list string :=
  [launch_line (web_command config)]
  ++ (if php_present then [launch_line (php_command config)] else [])
  ++ [launch_line (bot_command config)].

Definition abort_message : event :=
  Log ERROR "One or more file downloads failed. Aborting.".

(** *** Events *)

(** Kinds of events. *)
Definition is_launch (e : event) : Prop :=
  match e with SpawnShell _ _ | WaitPid _ => True | _ => False end.
Definition is_chmod (e : event) : Prop :=
  match e with Chmod _ _ => True | _ => False end.
Definition is_download (e : event) : Prop :=
  match e with HttpGet _ _ | OpenWrite _ | Write _ _ => True | _ => False end.
Definition is_log (e : event) : Prop :=
  match e with Log _ _ => True | _ => False end.

(** The events of a download: log lines, the request, the writes. *)
Definition download_event (e : event) : Prop := is_log e \/ is_download e.

(** The events of the permission loop. *)
Definition grant_event (e : event) : Prop := is_log e \/ is_chmod e.



(** The events a computation performs from a world on. *)
Definition performed {A : Type} (m : M A) (w : World) : list event :=
  drop (length (trace w)) (trace (m w).2).

(** The command lines of the shells spawned by a sequence of events. *)
Definition spawned (evs : list event) : list string :=
  omap (fun e => match e with SpawnShell _ c => Some c | _ => None end) evs.


(** *** Relations between the world before and after *)

(** A computation keeps a relation between the world before and after. *)
Definition preserves (R : relation World) {A : Type} (m : M A) : Prop :=
  forall w, R w (m w).2.

(** The trace grows by events that all satisfy [P]. *)
Definition emits_only (P : event -> Prop) : relation World :=
  fun w w' => exists evs, trace w' = trace w ++ evs /\ Forall P evs.

(** The trace grows by events whose spawned command lines, in order, are
    among those of [L], in order. *)
Definition spawns_among (L : list string) : relation World :=
  fun w w' => exists evs, trace w' = trace w ++ evs /\ sublist (spawned evs) L.

(** Everything but the file system, the process table, the threads and the
    trace: the parts of the world the script cannot change. *)
Definition same_surroundings : relation World :=
  fun w w' =>
    environ w' = environ w /\ machine w' = machine w /\ remote w' = remote w /\
    fault w' = fault w /\ shell_status w' = shell_status w /\ umask w' = umask w.

Definition same_procs : relation World := fun w w' => procs w' = procs w.
Definition same_threads : relation World := fun w w' => threads w' = threads w.
Definition same_fs : relation World := fun w w' => fs w' = fs w.

(** The entry of one path is left alone. *)
Definition fs_frame (p : Path) : relation World :=
  fun w w' => fs w' !! p = fs w !! p.

(** No file gains the owner-execute bit. *)
Definition no_new_exec : relation World :=
  fun w w' => forall p, owner_exec w' p = true -> owner_exec w p = true.

(** *** Sample environments and worlds *)


(** Monitoring configured without a port, with a port, and by half. *)
Definition env_agent_v1 : gmap string string :=
  <[ "NEZHA_SERVER" := "nz.example.org" ]> {[ "NEZHA_KEY" := "secret" ]}.
Definition env_agent_v0 : gmap string string :=
  <[ "NEZHA_PORT" := "5555" ]> env_agent_v1.
Definition env_key_only : gmap string string := {[ "NEZHA_KEY" := "secret" ]}.

(** A fresh machine: nothing on disk, no process, nothing refused, umask
    022. *)
Definition fresh_world (environ : gmap string string) (machine : string)
  (remote : string -> http_reply) : World :=
  {| environ := environ; machine := machine; remote := remote;
     fault := fun _ => None; shell_status := fun _ => 0; umask := 18;
     fs := ∅; procs := []; threads := []; trace := [] |}.

(** A server that answers every request with the same four bytes in two
    chunks, and one that answers 500 for the tunnel binary. *)
Definition remote_ok : string -> http_reply :=
  fun _ => Response 200 ["ab"; "cd"] StreamComplete.
Definition remote_500_for_2go : string -> http_reply :=
  fun url => if String.eqb url "https://amd64.ssss.nyc.mn/2go"
             then Response 500 [] StreamComplete
             else remote_ok url.

Definition world_500 : World := fresh_world env_agent_v1 "x86_64" remote_500_for_2go.
Definition world_npm : World := fresh_world env_agent_v0 "x86_64" remote_ok.
Definition world_plain : World := fresh_world ∅ "aarch64" remote_ok.


(** A server and a disk with one failure of each kind. *)
Definition remote_failing : string -> http_reply :=
  fun url =>
    if String.eqb url "https://h/404" then Response 404 ["no"] StreamComplete
    else if String.eqb url "https://h/down" then NoConnection
    else if String.eqb url "https://h/slow" then ConnectTimeout
    else if String.eqb url "https://h/cut" then Response 200 ["ab"] StreamReadError
    else if String.eqb url "https://h/stall" then Response 200 ["ab"] StreamTimeout
    else remote_ok url.

Definition fault_failing : syscall -> option string :=
  fun c =>
    match c with
    | SysOpen p =>
        if bool_decide (p = PurePath.of_str "ro/web")
        then Some "Permission denied" else None
    | SysWrite p 1 =>
        if bool_decide (p = PurePath.of_str "full/web")
        then Some "No space left on device" else None
    | _ => None
    end.

Definition world_failing : World :=
  {| environ := ∅; machine := "x86_64"; remote := remote_failing;
     fault := fault_failing; shell_status := fun _ => 0; umask := 18;
     fs := ∅; procs := []; threads := []; trace := [] |}.

(** *** Further vocabulary *)

(** [p.parent] for a path with at least one segment. *)
Definition parent_of (p : Path) : Path :=
  mkPath (p_root p) (removelast (p_segs p)).

(** The eight paths [__post_init__] derives, with their last segments. *)
Definition derived_paths (config : Config) : list (Path * string) :=
  [(SUB_FILE config, "sub.txt"); (LIST_FILE config, "list.txt");
   (CONFIG_FILE config, "config.json"); (BOOT_LOG_FILE config, "boot.log");
   (NPM_BIN config, "npm"); (PHP_BIN config, "php");
   (WEB_BIN config, "web"); (BOT_BIN config, "bot")].

Definition setup_message : event := Log INFO "Setting up environment...".

(** An [ERROR] line of the log. *)
Definition is_error_log (e : event) : Prop :=
  match e with Log ERROR _ => True | _ => False end.

(** The request got far enough for the destination to be opened: a 2xx
    status, a destination that is no directory, an accepted [open]. *)
Definition opens_destination (w : World) (url : string) (target : Path) : Prop :=
  exists st chunks fin,
    remote w url = Response st chunks fin /\
    200 <= st <= 299 /\
    is_dir w target = false /\
    fault w (SysOpen target) = None.

(** What exists keeps existing. *)
Definition keeps_existing : relation World :=
  fun w w' => forall p, exists_in w p = true -> exists_in w' p = true.

(** A machine whose working directory is taken by a regular file, and one
    that refuses to create it. *)
Definition world_cache_is_file : World :=
  with_fs (insert (PurePath.of_str ".cache") (Reg "x" 420)) world_plain.
Definition world_no_mkdir : World :=
  {| environ := ∅; machine := "x86_64"; remote := remote_ok;
     fault := fun c => match c with
                       | SysMkdir _ => Some "Permission denied"
                       | _ => None
                       end;
     shell_status := fun _ => 0; umask := 18;
     fs := ∅; procs := []; threads := []; trace := [] |}.

(** A machine that refuses to spawn the tunnel. *)
Definition world_no_spawn : World :=
  {| environ := ∅; machine := "x86_64"; remote := remote_ok;
     fault := fun c =>
       match c with
       | SysSpawn line =>
           if PyStr.contains "tunnel" line
           then Some "Resource temporarily unavailable" else None
       | _ => None
       end;
     shell_status := fun _ => 0; umask := 18;
     fs := ∅; procs := []; threads := []; trace := [] |}.


(** The chunks a write loop stores before its first refused write, the
    first chunk being write number [k]. *)
Fixpoint accepted (refused : syscall -> option string) (p : Path) (k : nat)
  (chunks : list string) : list string :=
  match chunks with
  | [] => []
  | c :: cs =>
      match refused (SysWrite p k) with
      | Some _ => []
      | None => c :: accepted refused p (S k) cs
      end
  end.

(** The mode a file has once [open(p, 'wb')] has gone through. *)
Definition mode_after_open (w : World) (p : Path) : Z :=
  match fs w !! p with
  | Some (Reg _ m) => m
  | _ => creation_mode w
  end.

(** The first and the last log line of a download that succeeds. *)
Definition start_line (file_name url : string) : event :=
  Log INFO ("Downloading " +:+ file_name +:+ " from " +:+ url +:+ "...").
Definition success_line (target : Path) : event :=
  Log INFO ("Successfully downloaded " +:+ PurePath.to_str target).

(** The names and commands handed to [run_background_process], in the
    order of [launch_tasks]. *)
Definition launch_jobs (config : Config) (php_present : bool)
  : list (string * string) :=
  [("web", web_command config)]
  ++ (if php_present then [("php", php_command config)] else [])
  ++ [("bot", bot_command config)].

(** The same paths exist before and after. *)
Definition same_existence : relation World :=
  fun w w' => forall p, exists_in w' p = exists_in w p.




(** * Properties *)

(** ** Paths and the configuration *)

Lemma joinpath_name (p : Path) (c : ascii) (s : string) :
  Ascii.eqb c "/" = false ->
  PurePath.segments (String c s) = [String c s] ->
  p // String c s = mkPath (p_root p) (p_segs p ++ [String c s]).
Proof.
  intros Hc Hs. unfold PurePath.joinpath, PurePath.root_of.
  assert (PurePath.leading_slashes (String c s) = O) as ->.
  { destruct c as [[] [] [] [] [] [] [] []]; try reflexivity; discriminate. }
  simpl. by rewrite Hs.
Qed.

Lemma Config_new_paths environ config :
  Config_new environ = Ok config ->
  let segs := p_segs (FILE_PATH config) in
  let r := p_root (FILE_PATH config) in
  WEB_BIN config = mkPath r (segs ++ ["web"]) /\
  BOT_BIN config = mkPath r (segs ++ ["bot"]) /\
  PHP_BIN config = mkPath r (segs ++ ["php"]) /\
  NPM_BIN config = mkPath r (segs ++ ["npm"]) /\
  CONFIG_FILE config = mkPath r (segs ++ ["config.json"]).
Proof.
  unfold Config_new. destruct (py_int _); intros [= <-]; simpl.
  repeat split; by apply joinpath_name.
Qed.

Lemma Config_new_bins_distinct environ config :
  Config_new environ = Ok config ->
  WEB_BIN config <> BOT_BIN config /\
  PHP_BIN config <> WEB_BIN config /\ PHP_BIN config <> BOT_BIN config /\
  NPM_BIN config <> WEB_BIN config /\ NPM_BIN config <> BOT_BIN config /\
  NPM_BIN config <> PHP_BIN config.
Proof.
  intros H. destruct (Config_new_paths _ _ H) as (-> & -> & -> & -> & _).
  repeat split; intros [= Hin]; by apply app_inv_head in Hin.
Qed.







(** ** The download set *)

(** C2. With monitoring server and key set and the port unset, the download
    set is the web and tunnel binaries plus the [v1] agent destined for the
    php path; with the port set as well, the [agent] binary destined for
    the npm path takes its place; with server or key unset, the set is the
    web and tunnel binaries alone. *)
Theorem download_set_by_monitoring (environ : gmap string string)
  (config : Config) (arch : string) :
  Config_new environ = Ok config ->
  let web := (FILE_PATH config // "web", artifact_url arch "web") in
  let bot := (FILE_PATH config // "bot", artifact_url arch "2go") in
  (NEZHA_SERVER config <> EmptyString -> NEZHA_KEY config <> EmptyString ->
   NEZHA_PORT config = EmptyString ->
   files_to_download config arch
   = [web; bot; (FILE_PATH config // "php", artifact_url arch "v1")]) /\
  (NEZHA_SERVER config <> EmptyString -> NEZHA_KEY config <> EmptyString ->
   NEZHA_PORT config <> EmptyString ->
   files_to_download config arch
   = [web; bot; (FILE_PATH config // "npm", artifact_url arch "agent")]) /\
  (NEZHA_SERVER config = EmptyString \/ NEZHA_KEY config = EmptyString ->
   files_to_download config arch = [web; bot]).
Proof.
  intros Hc.
  destruct (Config_new_bins_distinct _ _ Hc) as (Hwb & Hpw & Hpb & Hnw & Hnb & _).
  assert (WEB_BIN config = FILE_PATH config // "web" /\
          BOT_BIN config = FILE_PATH config // "bot" /\
          PHP_BIN config = FILE_PATH config // "php" /\
          NPM_BIN config = FILE_PATH config // "npm") as (Ew & Eb & Ep & En).
  { revert Hc. unfold Config_new. destruct (py_int _); intros [= <-]. done. }
  rewrite <- Ew, <- Eb, <- Ep, <- En.
  assert (dict_setitem (dict_setitem [] (WEB_BIN config) (artifact_url arch "web"))
            (BOT_BIN config) (artifact_url arch "2go")
          = [(WEB_BIN config, artifact_url arch "web");
             (BOT_BIN config, artifact_url arch "2go")]) as Hbase.
  { simpl. by case_decide. }
  unfold files_to_download. cbv zeta. rewrite Hbase.
  split; [| split].
  - intros Hs Hk ->. destruct (NEZHA_SERVER config), (NEZHA_KEY config); try done.
    simpl. by repeat case_decide.
  - intros Hs Hk Hp.
    destruct (NEZHA_SERVER config), (NEZHA_KEY config), (NEZHA_PORT config);
      try done.
    simpl. by repeat case_decide.
  - intros [-> | ->]; [done |]. by rewrite andb_false_r.
Qed.

Lemma download_set_by_monitoring_witness :
  files_to_download (config_of env_agent_v1) "amd"
  = [(PurePath.of_str ".cache/web", "https://amd64.ssss.nyc.mn/web");
     (PurePath.of_str ".cache/bot", "https://amd64.ssss.nyc.mn/2go");
     (PurePath.of_str ".cache/php", "https://amd64.ssss.nyc.mn/v1")] /\
  files_to_download (config_of env_agent_v0) "amd"
  = [(PurePath.of_str ".cache/web", "https://amd64.ssss.nyc.mn/web");
     (PurePath.of_str ".cache/bot", "https://amd64.ssss.nyc.mn/2go");
     (PurePath.of_str ".cache/npm", "https://amd64.ssss.nyc.mn/agent")] /\
  files_to_download (config_of env_key_only) "amd"
  = [(PurePath.of_str ".cache/web", "https://amd64.ssss.nyc.mn/web");
     (PurePath.of_str ".cache/bot", "https://amd64.ssss.nyc.mn/2go")].
Proof.
  split; [| split].
  - apply (download_set_by_monitoring env_agent_v1 (config_of env_agent_v1) "amd");
      [reflexivity | discriminate | discriminate | reflexivity].
  - apply (download_set_by_monitoring env_agent_v0 (config_of env_agent_v0) "amd");
      [reflexivity | discriminate | discriminate | discriminate].
  - apply (download_set_by_monitoring env_key_only (config_of env_key_only) "amd");
      [reflexivity | left; reflexivity].
Defined.

Lemma Forall_dict_setitem (Q : string -> Prop) (d : list (Path * string))
  (k : Path) (v : string) :
  Forall (fun pu => Q pu.2) d -> Q v ->
  Forall (fun pu => Q pu.2) (dict_setitem d k v).
Proof.
  intros Hd Hv. induction Hd as [| [k' v'] d Hx Hd IH]; simpl.
  - by constructor.
  - case_decide; constructor; auto.
Qed.

Lemma files_to_download_urls (Q : string -> Prop) (config : Config)
  (arch : string) :
  (forall key, Q (artifact_url arch key)) ->
  Forall (fun pu => Q pu.2) (files_to_download config arch).
Proof.
  intros HQ. unfold files_to_download.
  repeat case_match; repeat apply Forall_dict_setitem; auto.
Qed.

(** C3, as the code has it.  When the lower-cased machine name contains
    [aarch64] (as the name [aarch64] itself does), every download URL
    starts with [https://arm64.]; when it does not, every download URL
    starts with [https://amd64.]. *)
Theorem url_prefix_by_architecture (config : Config) (machine_name : string) :
  (PyStr.contains "aarch64" (PyStr.lower machine_name) = true ->
   urls_start_with "https://arm64."
     (files_to_download config (architecture machine_name))) /\
  (PyStr.contains "aarch64" (PyStr.lower machine_name) = false ->
   urls_start_with "https://amd64."
     (files_to_download config (architecture machine_name))).
Proof.
  unfold urls_start_with, architecture.
  split; intros ->.
  - apply (files_to_download_urls
             (fun u => String.prefix "https://arm64." u = true)).
    intros key. reflexivity.
  - apply (files_to_download_urls
             (fun u => String.prefix "https://amd64." u = true)).
    intros key. reflexivity.
Qed.

Lemma url_prefix_by_architecture_witness :
  urls_start_with "https://arm64."
    (files_to_download default_config (architecture "aarch64")) /\
  urls_start_with "https://amd64."
    (files_to_download default_config (architecture "x86_64")).
Proof.
  split.
  - apply (url_prefix_by_architecture default_config "aarch64"). reflexivity.
  - apply (url_prefix_by_architecture default_config "x86_64"). reflexivity.
Defined.

(** C3 as worded fails: [aarch64_be] is another machine name, and its
    download URLs do not start with [https://amd64.]. *)
Lemma other_machine_name_selects_arm64 :
  ~ (forall (config : Config) (machine_name : string),
        machine_name <> "aarch64" ->
        urls_start_with "https://amd64."
          (files_to_download config (architecture machine_name))).
Proof.
  intros H. specialize (H default_config "aarch64_be").
  apply Forall_cons in H as [H _]; [discriminate H | discriminate].
Qed.

(** ** Reasoning about computations *)

Lemma bind_run {A B : Type} (m : M A) (f : A -> M B) (w : World) :
  (m ≫= f) w = match m w with
               | (Ok a, w') => f a w'
               | (Raise e, w') => (Raise e, w')
               | (Unfinished, w') => (Unfinished, w')
               end.
Proof. reflexivity. Qed.

Lemma sys_run (c : syscall) (w : World) :
  sys c w = match fault w c with
            | Some msg => (Raise (OSError msg), w)
            | None => (Ok tt, w)
            end.
Proof. unfold sys. rewrite bind_run. simpl. by destruct (fault w c). Qed.

Section Preserves.
Context (R : relation World) `{!PreOrder R}.

Lemma preserves_ret {A : Type} (a : A) : preserves R (mret a).
Proof. intros w. reflexivity. Qed.

Lemma preserves_raise {A : Type} (e : exn) : preserves R (@raise A e).
Proof. intros w. reflexivity. Qed.

Lemma preserves_unfinished {A : Type} : preserves R (@unfinished A).
Proof. intros w. reflexivity. Qed.

Lemma preserves_gets {A : Type} (f : World -> A) : preserves R (gets f).
Proof. intros w. reflexivity. Qed.

Lemma preserves_bind {A B : Type} (m : M A) (f : A -> M B) :
  preserves R m -> (forall a, preserves R (f a)) -> preserves R (m ≫= f).
Proof.
  intros Hm Hf w. rewrite bind_run. specialize (Hm w).
  destruct (m w) as [[a | e |] w']; simpl in *; [| done | done].
  etrans; [exact Hm | apply Hf].
Qed.

Lemma preserves_try {A : Type} (m : M A) (h : exn -> M A) :
  preserves R m -> (forall e, preserves R (h e)) -> preserves R (try_except m h).
Proof.
  intros Hm Hh w. unfold try_except. specialize (Hm w).
  destruct (m w) as [[a | e |] w']; simpl in *; [done | | done].
  etrans; [exact Hm | apply Hh].
Qed.

Lemma preserves_sys (c : syscall) : preserves R (sys c).
Proof. intros w. rewrite sys_run. destruct (fault w c); reflexivity. Qed.

Lemma preserves_for_each {A : Type} (l : list A) (f : A -> M unit) :
  (forall a, preserves R (f a)) -> preserves R (for_each l f).
Proof.
  intros Hf. induction l as [| a l IH]; simpl.
  - apply preserves_ret.
  - apply preserves_bind; auto.
Qed.

Lemma preserves_gather {A : Type} (tasks : list (M A)) :
  Forall (preserves R) tasks -> preserves R (gather tasks).
Proof.
  induction 1 as [| t ts Ht Hts IH]; intros w; simpl.
  - reflexivity.
  - specialize (Ht w). destruct (t w) as [r w1].
    specialize (IH w1). destruct (gather ts w1) as [rs w2]. simpl in *.
    by etrans.
Qed.

Lemma preserves_idle (fuel : nat) :
  (forall e, preserves R (emit e)) -> preserves R (idle fuel).
Proof.
  intros He. induction fuel as [| n IH]; simpl.
  - apply preserves_unfinished.
  - apply preserves_bind; auto.
Qed.
End Preserves.

#[local] Instance emits_only_preorder (P : event -> Prop) : PreOrder (emits_only P).
Proof.
  split.
  - intros w. exists []. by rewrite app_nil_r.
  - intros w1 w2 w3 (e1 & H1 & F1) (e2 & H2 & F2). exists (e1 ++ e2).
    rewrite H2, H1, app_assoc. split; [done | by apply Forall_app].
Qed.

#[local] Instance same_surroundings_preorder : PreOrder same_surroundings.
Proof.
  split.
  - by intros w.
  - intros w1 w2 w3 (?&?&?&?&?&?) (?&?&?&?&?&?).
    repeat split; congruence.
Qed.

#[local] Instance same_procs_preorder : PreOrder same_procs.
Proof. split; unfold same_procs; [by intros w | intros w1 w2 w3; congruence]. Qed.

#[local] Instance same_threads_preorder : PreOrder same_threads.
Proof. split; unfold same_threads; [by intros w | intros w1 w2 w3; congruence]. Qed.

#[local] Instance same_fs_preorder : PreOrder same_fs.
Proof. split; unfold same_fs; [by intros w | intros w1 w2 w3; congruence]. Qed.

#[local] Instance fs_frame_preorder (p : Path) : PreOrder (fs_frame p).
Proof. split; unfold fs_frame; [by intros w | intros w1 w2 w3; congruence]. Qed.

#[local] Instance no_new_exec_preorder : PreOrder no_new_exec.
Proof. split; unfold no_new_exec; [by intros w | intros w1 w2 w3; eauto]. Qed.

(** Splitting a computation along its binds, handlers and branches. *)
Ltac pres_split :=
  repeat match goal with
    | |- preserves ?R (mret _) => apply (@preserves_ret R _)
    | |- preserves ?R (raise _) => apply (@preserves_raise R _)
    | |- preserves ?R unfinished => apply (@preserves_unfinished R _)
    | |- preserves ?R (gets _) => apply (@preserves_gets R _)
    | |- preserves ?R (sys _) => apply (@preserves_sys R _)
    | |- preserves ?R (_ ≫= _) => apply (@preserves_bind R _); [| intros ?]
    | |- preserves ?R (try_except _ _) => apply (@preserves_try R _); [| intros ?]
    | |- preserves ?R (for_each _ _) => apply (@preserves_for_each R _); intros ?
    | |- preserves _ (match ?x with _ => _ end) => destruct x
    end.

Lemma emits_only_emit (P : event -> Prop) (e : event) :
  P e -> preserves (emits_only P) (emit e).
Proof. intros He w. exists [e]. split; [done | by constructor]. Qed.

Lemma emits_only_with_fs (P : event -> Prop) f :
  preserves (emits_only P) (modify (with_fs f)).
Proof. intros w. exists []. by rewrite app_nil_r. Qed.

(** The file-system primitives and their effect on one entry. *)

Lemma exec_truncated (w : World) (p : Path) d m :
  truncated w p = Reg d m -> Z.testbit m 6 = true -> owner_exec w p = true.
Proof.
  unfold truncated, owner_exec.
  destruct (fs w !! p) as [[| d' m'] |]; intros [= <- <-]; try done.
  - unfold creation_mode. rewrite Z.land_spec. done.
  - unfold creation_mode. rewrite Z.land_spec. done.
Qed.

Lemma no_new_exec_insert_truncated (p : Path) :
  preserves no_new_exec (modify (fun w => with_fs (insert p (truncated w p)) w)).
Proof.
  intros w q. unfold owner_exec at 1. simpl.
  destruct (decide (p = q)) as [<- | Hne].
  - rewrite lookup_insert_eq. destruct (truncated w p) eqn:E; [done |].
    intros Hb. eapply exec_truncated; eauto.
  - by rewrite lookup_insert_ne.
Qed.

Lemma no_new_exec_append (p : Path) (chunk : string) :
  preserves no_new_exec (modify (with_fs (alter (append_data chunk) p))).
Proof.
  intros w q. unfold owner_exec. simpl.
  destruct (decide (p = q)) as [<- | Hne].
  - rewrite lookup_alter_eq. by destruct (fs w !! p) as [[] |].
  - by rewrite lookup_alter_ne.
Qed.

Lemma no_new_exec_with_trace f : preserves no_new_exec (modify (with_trace f)).
Proof. by intros w q. Qed.

(** ** download_file *)

Section DownloadPreserves.
Context (R : relation World) `{!PreOrder R} (p : Path).
Hypothesis R_emit : forall e, is_log e \/ is_download e -> preserves R (emit e).
Hypothesis R_open :
  preserves R (modify (fun w => with_fs (insert p (truncated w p)) w)).
Hypothesis R_write :
  forall c, preserves R (modify (with_fs (alter (append_data c) p))).

Lemma preserves_write_chunks (fin : stream_end) (chunks : list string) :
  forall k, preserves R (write_chunks p k chunks fin).
Proof using R_emit R_write PreOrder0.
  induction chunks as [| c cs IH]; intros k; simpl.
  - destruct fin; pres_split.
  - unfold file_write. pres_split; auto.
    apply R_emit. by right.
Qed.

Lemma preserves_download_file (file_name url : string) :
  preserves R (download_file file_name url p).
Proof using R_emit R_open R_write PreOrder0.
  unfold download_file, stream_to_file, download_failed, logging_info,
    logging_error, client_stream_GET, raise_for_status, open_wb.
  pres_split; auto using preserves_write_chunks;
    try (apply R_emit; simpl; tauto).
Qed.
End DownloadPreserves.

Lemma download_file_emits (file_name url : string) (p : Path) :
  preserves (emits_only download_event) (download_file file_name url p).
Proof.
  apply preserves_download_file; try apply _.
  - intros e He. by apply emits_only_emit.
  - intros w. exists []. by rewrite app_nil_r.
  - intros c. apply emits_only_with_fs.
Qed.

Lemma download_file_surroundings (file_name url : string) (p : Path) :
  preserves same_surroundings (download_file file_name url p).
Proof. apply preserves_download_file; try apply _; by intros. Qed.

Lemma download_file_procs (file_name url : string) (p : Path) :
  preserves same_procs (download_file file_name url p).
Proof. apply preserves_download_file; try apply _; by intros. Qed.



Lemma download_file_no_new_exec (file_name url : string) (p : Path) :
  preserves no_new_exec (download_file file_name url p).
Proof.
  apply preserves_download_file; try apply _.
  - intros e _. apply no_new_exec_with_trace.
  - apply no_new_exec_insert_truncated.
  - intros c. apply no_new_exec_append.
Qed.

Lemma append_assoc (a b c : string) : (a +:+ b) +:+ c = a +:+ (b +:+ c).
Proof.
  induction a as [| x a IH]; [done |].
  change ((String x ((a +:+ b) +:+ c)) = String x (a +:+ (b +:+ c))).
  by rewrite IH.
Qed.

Lemma append_empty_r (a : string) : a +:+ EmptyString = a.
Proof.
  induction a as [| x a IH]; [done |].
  change (String x (a +:+ EmptyString) = String x a). by rewrite IH.
Qed.

Lemma file_write_run (p : Path) (k : nat) (c : string) (w : World) :
  file_write p k c w
  = match fault w (SysWrite p k) with
    | Some msg => (Raise (OSError msg), w)
    | None => (Ok tt, with_fs (alter (append_data c) p)
                        (with_trace (fun t => t ++ [Write p c]) w))
    end.
Proof.
  unfold file_write. rewrite bind_run, sys_run.
  by destruct (fault w (SysWrite p k)).
Qed.

(** The write loop either stores every chunk, or stops with an exception
    at the first refused write or at a broken stream. *)
Lemma write_chunks_spec (p : Path) (fin : stream_end) (chunks : list string) :
  forall (k : nat) (w : World) d m,
    fs w !! p = Some (Reg d m) ->
    (fin = StreamComplete /\
     (forall i, (i < length chunks)%nat -> fault w (SysWrite p (k + i)) = None) /\
     exists w', write_chunks p k chunks fin w = (Ok tt, w') /\
                fs w' !! p = Some (Reg (d +:+ body chunks) m))
    \/
    ((fin <> StreamComplete \/
      exists i, (i < length chunks)%nat /\ fault w (SysWrite p (k + i)) <> None) /\
     exists e w', write_chunks p k chunks fin w = (Raise e, w')).
Proof.
  induction chunks as [| c cs IH]; intros k w d m Hp; simpl.
  - destruct fin.
    + left. split; [done |]. split; [intros i Hi; lia |].
      eexists. split; [reflexivity |].
      by rewrite Hp, append_empty_r.
    + right. split; [by left | by eexists _, _].
    + right. split; [by left | by eexists _, _].
  - rewrite bind_run, file_write_run.
    destruct (fault w (SysWrite p k)) as [msg |] eqn:Hf.
    + right. split; [| by eexists _, _].
      right. exists O. rewrite Nat.add_0_r, Hf. split; [lia | done].
    + set (w1 := with_fs _ _).
      assert (fs w1 !! p = Some (Reg (d +:+ c) m)) as Hp1.
      { subst w1. simpl. by rewrite lookup_alter_eq, Hp. }
      destruct (IH (S k) w1 _ _ Hp1)
        as [(-> & Hok & w' & Hrun & Hfs) | (Hbad & e & w' & Hrun)].
      * left. split; [done |]. split.
        -- intros [| i] Hi; [by rewrite Nat.add_0_r |].
           rewrite <- Nat.add_succ_comm. apply (Hok i). lia.
        -- exists w'. split; [done |]. by rewrite Hfs, append_assoc.
      * right. split; [| by eexists _, _].
        destruct Hbad as [Hfin | (i & Hi & Hfi)]; [by left | right].
        exists (S i). rewrite <- Nat.add_succ_comm. split; [lia | done].
Qed.

Lemma client_stream_GET_run (url : string) (timeout : Z) (w : World) :
  client_stream_GET url timeout w
  = let w1 := with_trace (fun t => t ++ [HttpGet url timeout]) w in
    match remote w url with
    | NoConnection => (Raise ConnectError, w1)
    | ConnectTimeout => (Raise TimeoutException, w1)
    | Response st chunks fin => (Ok (st, chunks, fin), w1)
    end.
Proof.
  unfold client_stream_GET. rewrite bind_run. simpl. rewrite bind_run. simpl.
  by destruct (remote w url).
Qed.

Lemma open_wb_run (p : Path) (w : World) :
  open_wb p w
  = if is_dir w p then (Raise (OSError "Is a directory"), w)
    else match fault w (SysOpen p) with
         | Some msg => (Raise (OSError msg), w)
         | None =>
             let w1 := with_trace (fun t => t ++ [OpenWrite p]) w in
             (Ok tt, with_fs (insert p (truncated w1 p)) w1)
         end.
Proof.
  unfold open_wb. rewrite bind_run. simpl. destruct (is_dir w p); [done |].
  rewrite bind_run, sys_run. by destruct (fault w (SysOpen p)).
Qed.

Lemma truncated_empty (w : World) (p : Path) :
  exists m, truncated w p = Reg EmptyString m.
Proof. unfold truncated. destruct (fs w !! p) as [[] |]; eauto. Qed.

(** The [try] block returns [True] exactly when the stream goes through,
    with the whole body in the file; otherwise it raises. *)
Lemma stream_to_file_spec (url : string) (target : Path) (w : World) r w' :
  stream_to_file url target w = (r, w') ->
  (r = Ok true /\ stream_succeeds w url target /\
   exists st chunks m,
     remote w url = Response st chunks StreamComplete /\
     fs w' !! target = Some (Reg (body chunks) m))
  \/
  (exists e, r = Raise e /\ ~ stream_succeeds w url target).
Proof.
  unfold stream_to_file, stream_succeeds. rewrite bind_run, client_stream_GET_run.
  cbv zeta. destruct (remote w url) as [| | st chunks fin] eqn:Hr.
  - intros [= <- <-]. right. eexists. split; [done |]. by intros (? & ? & ? & _).
  - intros [= <- <-]. right. eexists. split; [done |]. by intros (? & ? & ? & _).
  - rewrite bind_run. unfold raise_for_status.
    destruct ((200 <=? st) && (st <=? 299)) eqn:Hst; simpl.
    2: { intros [= <- <-]. right. eexists. split; [done |].
         intros (st' & ? & [= <- _ _] & Hrange & _).
         apply andb_false_iff in Hst as [?%Z.leb_gt | ?%Z.leb_gt]; lia. }
    apply andb_true_iff in Hst as [?%Z.leb_le ?%Z.leb_le].
    rewrite bind_run, open_wb_run.
    change (is_dir (with_trace _ w) target) with (is_dir w target).
    destruct (is_dir w target) eqn:Hd.
    { intros [= <- <-]. right. eexists. split; [done |].
      by intros (? & ? & _ & _ & ? & _). }
    change (fault (with_trace _ w)) with (fault w).
    destruct (fault w (SysOpen target)) eqn:Ho.
    { intros [= <- <-]. right. eexists. split; [done |].
      by intros (? & ? & _ & _ & _ & ? & _). }
    cbv zeta. set (w1 := with_trace _ (with_trace _ w)).
    destruct (truncated_empty w1 target) as [m Hm]. rewrite Hm.
    set (w2 := with_fs _ w1).
    assert (fs w2 !! target = Some (Reg EmptyString m)) as H2.
    { subst w2. simpl. by rewrite lookup_insert_eq. }
    rewrite bind_run.
    destruct (write_chunks_spec target fin chunks 0 w2 _ _ H2)
      as [(-> & Hok & w3 & -> & H3) | (Hbad & e & w3 & ->)].
    + rewrite bind_run. simpl. intros [= <- <-]. left.
      split; [done |]. split.
      * exists st, chunks. repeat split; done.
      * exists st, chunks, m. split; [done |]. simpl. exact H3.
    + intros [= <- <-]. right. eexists. split; [done |].
      intros (? & ? & [= _ <- Hfin] & _ & _ & _ & Hw).
      destruct Hbad as [? | (i & Hi & Hfi)]; [done |]. apply Hfi, Hw, Hi.
Qed.

Lemma download_failed_run (file_name : string) (e : exn) (w : World) :
  exists w', download_failed file_name e w = (Ok false, w').
Proof. destruct e; by eexists. Qed.

Lemma download_file_spec (file_name url : string) (target : Path) (w : World) :
  exists b w',
    download_file file_name url target w = (Ok b, w') /\
    (b = true <-> stream_succeeds w url target) /\
    (b = true ->
     exists st chunks m,
       remote w url = Response st chunks StreamComplete /\
       fs w' !! target = Some (Reg (body chunks) m)).
Proof.
  unfold download_file. rewrite bind_run. unfold logging_info at 1. simpl.
  set (w0 := with_trace _ w). unfold try_except.
  destruct (stream_to_file url target w0) as [r w1] eqn:Hrun.
  apply stream_to_file_spec in Hrun
    as [(-> & Hs & Hfile) | (e & -> & Hs)].
  - exists true, w1. split; [done |]. split; [| by intros _]. by split.
  - destruct (download_failed_run file_name e w1) as [w2 ->].
    exists false, w2. split; [done |]. split; [| done]. by split.
Qed.

(** C7. [download_file] always returns a boolean and never raises.  A
    status outside 2xx, a failed or broken connection, a timeout while
    connecting or while reading, a destination that cannot be opened and a
    refused write all give [False].  [True] is returned only for a complete
    2xx response whose whole body is in the destination file by then. *)
Theorem download_file_reports (file_name url : string) (target : Path)
  (w : World) :
  exists b w',
    download_file file_name url target w = (Ok b, w') /\
    (forall st chunks fin,
        remote w url = Response st chunks fin -> ~ 200 <= st <= 299 ->
        b = false) /\
    (remote w url = NoConnection -> b = false) /\
    (forall st chunks,
        remote w url = Response st chunks StreamReadError -> b = false) /\
    (remote w url = ConnectTimeout -> b = false) /\
    (forall st chunks,
        remote w url = Response st chunks StreamTimeout -> b = false) /\
    (fault w (SysOpen target) <> None -> b = false) /\
    (forall st chunks fin k,
        remote w url = Response st chunks fin -> (k < length chunks)%nat ->
        fault w (SysWrite target k) <> None -> b = false) /\
    (b = true ->
     exists st chunks m,
       remote w url = Response st chunks StreamComplete /\
       200 <= st <= 299 /\
       fs w' !! target = Some (Reg (body chunks) m)).
Proof.
  destruct (download_file_spec file_name url target w)
    as (b & w' & Hrun & Hiff & Hfile).
  exists b, w'. split; [done |].
  assert (forall P : Prop, (stream_succeeds w url target -> ~ P) -> P -> b = false)
    as Hno.
  { intros P HP HPp. destruct b; [| done]. destruct HP; [by apply Hiff | done]. }
  repeat split.
  - intros st chunks fin Hr Hst. apply (Hno (~ 200 <= st <= 299)); [| done].
    intros (st' & ? & Hr' & Hrange & _) Hn. apply Hn.
    rewrite Hr in Hr'. by injection Hr' as -> _ _.
  - intros Hr. apply (Hno (remote w url = NoConnection)); [| done].
    intros (? & ? & Hr' & _) _. congruence.
  - intros st chunks Hr.
    apply (Hno (remote w url = Response st chunks StreamReadError)); [| done].
    intros (? & ? & Hr' & _) _. congruence.
  - intros Hr. apply (Hno (remote w url = ConnectTimeout)); [| done].
    intros (? & ? & Hr' & _) _. congruence.
  - intros st chunks Hr.
    apply (Hno (remote w url = Response st chunks StreamTimeout)); [| done].
    intros (? & ? & Hr' & _) _. congruence.
  - intros Ho. apply (Hno (fault w (SysOpen target) <> None)); [| done].
    intros (? & ? & _ & _ & _ & Ho' & _) Hne. done.
  - intros st chunks fin k Hr Hk Hf.
    apply (Hno (fault w (SysWrite target k) <> None)); [| done].
    intros (? & ? & Hr' & _ & _ & _ & Hw) Hne. apply Hne, Hw.
    rewrite Hr in Hr'. by injection Hr' as _ <- _.
  - intros Hb. destruct (Hfile Hb) as (st & chunks & m & Hr & Hfs).
    apply Hiff in Hb as (st' & chunks' & Hr' & Hst & _).
    rewrite Hr in Hr'. injection Hr' as <- <-. by exists st, chunks, m.
Qed.

Lemma download_file_reports_witness :
  (download_file "web" "https://h/404" (PurePath.of_str "d/web") world_failing).1
  = Ok false /\
  (download_file "web" "https://h/down" (PurePath.of_str "d/web") world_failing).1
  = Ok false /\
  (download_file "web" "https://h/cut" (PurePath.of_str "d/web") world_failing).1
  = Ok false /\
  (download_file "web" "https://h/slow" (PurePath.of_str "d/web") world_failing).1
  = Ok false /\
  (download_file "web" "https://h/stall" (PurePath.of_str "d/web") world_failing).1
  = Ok false /\
  (download_file "web" "https://h/web" (PurePath.of_str "ro/web") world_failing).1
  = Ok false /\
  (download_file "web" "https://h/web" (PurePath.of_str "full/web") world_failing).1
  = Ok false /\
  (exists m,
      fs (download_file "web" "https://h/web" (PurePath.of_str "d/web")
            world_failing).2 !! PurePath.of_str "d/web"
      = Some (Reg "abcd" m)).
Proof.
  repeat apply conj.
  - destruct (download_file_reports "web" "https://h/404"
                (PurePath.of_str "d/web") world_failing)
      as (b & w' & -> & H & _).
    simpl. f_equal. apply (H 404 ["no"] StreamComplete); [reflexivity | lia].
  - destruct (download_file_reports "web" "https://h/down"
                (PurePath.of_str "d/web") world_failing)
      as (b & w' & -> & _ & H & _).
    simpl. f_equal. apply H. reflexivity.
  - destruct (download_file_reports "web" "https://h/cut"
                (PurePath.of_str "d/web") world_failing)
      as (b & w' & -> & _ & _ & H & _).
    simpl. f_equal. apply (H 200 ["ab"]). reflexivity.
  - destruct (download_file_reports "web" "https://h/slow"
                (PurePath.of_str "d/web") world_failing)
      as (b & w' & -> & _ & _ & _ & H & _).
    simpl. f_equal. apply H. reflexivity.
  - destruct (download_file_reports "web" "https://h/stall"
                (PurePath.of_str "d/web") world_failing)
      as (b & w' & -> & _ & _ & _ & _ & H & _).
    simpl. f_equal. apply (H 200 ["ab"]). reflexivity.
  - destruct (download_file_reports "web" "https://h/web"
                (PurePath.of_str "ro/web") world_failing)
      as (b & w' & -> & _ & _ & _ & _ & _ & H & _).
    simpl. f_equal. apply H. discriminate.
  - destruct (download_file_reports "web" "https://h/web"
                (PurePath.of_str "full/web") world_failing)
      as (b & w' & -> & _ & _ & _ & _ & _ & _ & H & _).
    simpl. f_equal.
    apply (H 200 ["ab"; "cd"] StreamComplete 1%nat);
      [reflexivity | simpl; lia | discriminate].
  - destruct (download_file_reports "web" "https://h/web"
                (PurePath.of_str "d/web") world_failing)
      as (b & w' & Hrun & _ & _ & _ & _ & _ & _ & _ & H).
    assert (b = true) as Hb.
    { vm_compute in Hrun. by injection Hrun as <- _. }
    destruct (H Hb) as (st & chunks & m & Hr & _ & Hfs).
    injection Hr as <- <-. rewrite Hrun. exists m. exact Hfs.
Defined.

(** ** The batch of downloads *)

Lemma gather_downloads_run (files : list (Path * string)) (w : World) :
  exists results w', gather (download_tasks files) w = (Ok results, w').
Proof.
  revert w. induction files as [| [p url] files IH]; intros w; simpl.
  - by eexists _, _.
  - destruct (download_file_spec (PurePath.name p) url p w)
      as (b & w1 & -> & _).
    destruct (IH w1) as (results & w2 & ->). by eexists _, _.
Qed.

Lemma preserves_downloads (R : relation World) `{!PreOrder R}
  (files : list (Path * string)) :
  (forall file_name url p, preserves R (download_file file_name url p)) ->
  preserves R (gather (download_tasks files)).
Proof.
  intros H. apply preserves_gather; [done |].
  unfold download_tasks. apply Forall_map, Forall_forall. intros [p url] _. apply H.
Qed.

(** One URL answered by a status outside 2xx makes the batch fail. *)
Lemma http_error_fails_batch (files : list (Path * string)) :
  forall w results w1 p url st chunks fin,
    gather (download_tasks files) w = (Ok results, w1) ->
    (p, url) ∈ files ->
    remote w url = Response st chunks fin -> ~ 200 <= st <= 299 ->
    false ∈ results.
Proof.
  induction files as [| [p0 u0] files IH];
    intros w results w1 p url st chunks fin Hrun Hin Hr Hst.
  - by apply elem_of_nil in Hin.
  - simpl in Hrun.
    destruct (download_file_spec (PurePath.name p0) u0 p0 w)
      as (b & w' & Hdl & Hiff & _).
    pose proof (download_file_surroundings (PurePath.name p0) u0 p0 w) as Hsame.
    rewrite Hdl in Hrun, Hsame. destruct Hsame as (_ & _ & Hremote & _).
    destruct (gather_downloads_run files w') as (rs & w2 & Hrest).
    rewrite Hrest in Hrun. injection Hrun as <- <-.
    apply elem_of_cons in Hin as [[= -> ->] | Hin].
    + destruct b; [| apply list_elem_of_here].
      destruct (proj1 Hiff eq_refl) as (st' & ? & Hr' & Hrange & _).
      rewrite Hr in Hr'. injection Hr' as -> _ _. done.
    + apply list_elem_of_further.
      apply (IH w' rs w2 p url st chunks fin); try done.
      simpl in Hremote. by rewrite Hremote.
Qed.

Lemma start_services_run (config : Config) (w : World) results w1 :
  gather (download_tasks (files_of config w)) w = (Ok results, w1) ->
  start_services config w
  = if negb (forallb id results)
    then (Ok tt, with_trace (fun t => t ++ [abort_message]) w1)
    else (for_each (map fst (files_of config w)) grant_execute ;;
          logging_info "Configurations generated." ;;
          php_present ← Path_exists (PHP_BIN config);
          gather (launch_tasks config php_present) ;;
          logging_info "All services have been started.") w1.
Proof.
  intros Hrun. unfold start_services. rewrite bind_run. simpl.
  rewrite bind_run. unfold files_of in Hrun. rewrite Hrun.
  by destruct (negb (forallb id results)).
Qed.

Lemma forallb_id_false (results : list bool) :
  false ∈ results -> forallb id results = false.
Proof.
  induction results as [| [] results IH]; intros Hin; simpl.
  - by apply elem_of_nil in Hin.
  - apply IH. by apply elem_of_cons in Hin as [? | ?].
  - done.
Qed.

Lemma Forall_not_launch_chmod (evs : list event) :
  Forall download_event evs -> Forall (fun e => ~ is_launch e /\ ~ is_chmod e) evs.
Proof.
  intros H. eapply Forall_impl; [exact H |].
  intros e [He | He]; destruct e; simpl in *; tauto.
Qed.

(** C1. When one download of the batch fails, [start_services] logs the
    failure and returns at once: from its start to its end it spawns no
    process, waits for none and changes no permission, the process table is
    as before and no file has gained the owner-execute bit, whatever the
    other downloads left on disk. *)
Theorem failed_download_aborts (config : Config) (w : World) results w1 :
  gather (download_tasks (files_of config w)) w = (Ok results, w1) ->
  false ∈ results ->
  exists evs,
    start_services config w
    = (Ok tt, with_trace (fun t => t ++ [abort_message]) w1) /\
    performed (start_services config) w = evs ++ [abort_message] /\
    Forall (fun e => ~ is_launch e /\ ~ is_chmod e) (evs ++ [abort_message]) /\
    procs (start_services config w).2 = procs w /\
    fs (start_services config w).2 = fs w1 /\
    forall p, owner_exec (start_services config w).2 p = true ->
              owner_exec w p = true.
Proof.
  intros Hrun Hfalse.
  rewrite (start_services_run _ _ _ _ Hrun), (forallb_id_false _ Hfalse). simpl.
  pose proof (preserves_downloads (emits_only download_event)
                (files_of config w) download_file_emits w) as (evs & Ht & Hevs).
  pose proof (preserves_downloads same_procs
                (files_of config w) download_file_procs w) as Hp.
  pose proof (preserves_downloads no_new_exec
                (files_of config w) download_file_no_new_exec w) as Hx.
  rewrite Hrun in Ht, Hp, Hx. simpl in Ht, Hp, Hx.
  exists evs. repeat apply conj; try done.
  - unfold performed.
    rewrite (start_services_run _ _ _ _ Hrun), (forallb_id_false _ Hfalse).
    simpl. by rewrite Ht, <- app_assoc, drop_app_length.
  - apply Forall_app. split; [by apply Forall_not_launch_chmod |].
    apply Forall_singleton. split; intros H; exact H.
Qed.

Lemma failed_download_aborts_witness :
  let config := config_of env_agent_v1 in
  let w' := (start_services config world_500).2 in
  (start_services config world_500).1 = Ok tt /\
  Forall (fun e => ~ is_launch e /\ ~ is_chmod e)
    (performed (start_services config) world_500) /\
  procs w' = [] /\
  fs w' !! PurePath.of_str ".cache/web" = Some (Reg "abcd" 420) /\
  fs w' !! PurePath.of_str ".cache/php" = Some (Reg "abcd" 420) /\
  owner_exec w' (PurePath.of_str ".cache/web") = false.
Proof.
  intros config w'.
  assert (gather (download_tasks (files_of config world_500)) world_500
          = (Ok [true; false; true],
             (gather (download_tasks (files_of config world_500)) world_500).2))
    as Hrun by (vm_compute; reflexivity).
  destruct (failed_download_aborts config world_500 _ _ Hrun)
    as (evs & Hs & Hperf & Hall & Hprocs & Hfs & Hexec).
  { apply list_elem_of_further, list_elem_of_here. }
  repeat apply conj.
  - by rewrite Hs.
  - by rewrite Hperf.
  - exact Hprocs.
  - subst w'. rewrite Hfs. vm_compute. reflexivity.
  - subst w'. rewrite Hfs. vm_compute. reflexivity.
  - destruct (owner_exec w' (PurePath.of_str ".cache/web")) eqn:E; [| done].
    apply Hexec in E. vm_compute in E. discriminate E.
Defined.

(** ** Permissions *)

Lemma dict_setitem_keys (d : list (Path * string)) (k : Path) (v : string) :
  (dict_setitem d k v).*1 = if decide (k ∈ d.*1) then d.*1 else d.*1 ++ [k].
Proof.
  induction d as [| [k' v'] d IH]; [done |].
  change (dict_setitem ((k', v') :: d) k v)
    with (if decide (k' = k) then (k', v) :: d else (k', v') :: dict_setitem d k v).
  destruct (decide (k' = k)) as [-> | Hk]; rewrite !fmap_cons; simpl.
  - rewrite decide_True by apply list_elem_of_here. done.
  - rewrite IH. destruct (decide (k ∈ d.*1)).
    + rewrite decide_True by (by apply list_elem_of_further). done.
    + rewrite decide_False; [done |].
      intros [? | ?]%elem_of_cons; congruence.
Qed.




Lemma grant_execute_run (p : Path) (w : World) :
  grant_execute p w
  = if exists_in w p
    then (Ok tt,
          with_trace (fun t => t ++ [Log INFO ("Set execute permission for "
                                               +:+ PurePath.to_str p)])
            (with_fs (alter (set_mode 509) p)
               (with_trace (fun t => t ++ [Chmod p 509]) w)))
    else (Ok tt, w).
Proof.
  unfold grant_execute. rewrite bind_run. simpl. by destruct (exists_in w p).
Qed.

(** The loop over the keys sets the mode of every key that is a regular
    file and leaves the other files as they are. *)
Lemma grant_loop_spec (keys : list Path) :
  forall w, exists w',
    for_each keys grant_execute w = (Ok tt, w') /\
    forall p d m,
      fs w !! p = Some (Reg d m) ->
      fs w' !! p = Some (Reg d (if decide (p ∈ keys) then 509 else m)).
Proof.
  induction keys as [| k keys IH]; intros w.
  - exists w. split; [done |]. intros p d m Hp.
    by rewrite decide_False by apply not_elem_of_nil.
  - simpl. rewrite bind_run, grant_execute_run.
    destruct (exists_in w k) eqn:Hk.
    + set (w1 := with_trace _ (with_fs _ _)).
      destruct (IH w1) as (w' & -> & Hw'). exists w'. split; [done |].
      intros p d m Hp. destruct (decide (p = k)) as [-> | Hne].
      * rewrite decide_True by apply list_elem_of_here.
        assert (fs w1 !! k = Some (Reg d 509)) as H1.
        { subst w1. simpl. by rewrite lookup_alter_eq, Hp. }
        rewrite (Hw' _ _ _ H1). by destruct (decide (k ∈ keys)).
      * assert (fs w1 !! p = Some (Reg d m)) as H1.
        { subst w1. simpl. by rewrite lookup_alter_ne. }
        rewrite (Hw' _ _ _ H1). f_equal. f_equal.
        destruct (decide (p ∈ keys)).
        -- by rewrite decide_True by (by apply list_elem_of_further).
        -- rewrite decide_False; [done |].
           intros [? | ?]%elem_of_cons; done.
    + destruct (IH w) as (w' & -> & Hw'). exists w'. split; [done |].
      intros p d m Hp. rewrite (Hw' _ _ _ Hp). f_equal. f_equal.
      assert (p <> k) as Hne.
      { intros ->. unfold exists_in in Hk.
        apply orb_false_iff in Hk as [_ Hk]. apply bool_decide_eq_false in Hk.
        apply Hk. rewrite Hp. by eexists. }
      destruct (decide (p ∈ keys)).
      * by rewrite decide_True by (by apply list_elem_of_further).
      * rewrite decide_False; [done |].
        intros [? | ?]%elem_of_cons; done.
Qed.

(** ** run_background_process *)

Lemma run_background_process_run (name command : string) (w : World) :
  run_background_process name command w
  = let w1 := with_trace (fun t => t ++ [Log INFO ("Starting background process: "
                                                   +:+ name)]) w in
    match fault w (SysSpawn (launch_line command)) with
    | Some msg => (Raise (OSError msg), w1)
    | None =>
        let pid := S (length (procs w)) in
        (Ok tt,
         with_trace (fun t => t ++ [Log INFO (name +:+ " process started.")])
           (with_trace (fun t => t ++ [WaitPid pid])
              (with_trace (fun t => t ++ [SpawnShell pid (launch_line command)])
                 (with_procs (fun l => l ++ [(pid, launch_line command)]) w1))))
    end.
Proof.
  unfold run_background_process, create_subprocess_shell, process_wait.
  rewrite bind_run. simpl. rewrite !bind_run, sys_run.
  change (fault (with_trace _ w)) with (fault w). unfold launch_line.
  by destruct (fault w _).
Qed.

Lemma run_background_process_same_fs (name command : string) :
  preserves same_fs (run_background_process name command).
Proof.
  intros w. rewrite run_background_process_run. cbv zeta.
  by destruct (fault w _).
Qed.

Lemma run_background_process_spawns (name command : string) (w : World) :
  spawns_among [launch_line command] w (run_background_process name command w).2.
Proof.
  rewrite run_background_process_run. cbv zeta.
  destruct (fault w _); simpl.
  - eexists. split; [reflexivity |]. simpl. apply sublist_nil_l.
  - eexists [_; _; _; _]. split.
    + simpl. by rewrite <- !app_assoc.
    + done.
Qed.

Lemma spawns_among_app (L1 L2 : list string) (w1 w2 w3 : World) :
  spawns_among L1 w1 w2 -> spawns_among L2 w2 w3 ->
  spawns_among (L1 ++ L2) w1 w3.
Proof.
  intros (e1 & H1 & S1) (e2 & H2 & S2). exists (e1 ++ e2).
  rewrite H2, H1, app_assoc. split; [done |].
  unfold spawned. rewrite omap_app. by apply sublist_app.
Qed.

Lemma spawned_cons (e : event) (evs : list event) :
  spawned (e :: evs)
  = match e with
    | SpawnShell _ c => c :: spawned evs
    | _ => spawned evs
    end.
Proof. by destruct e. Qed.

Lemma spawns_among_none (P : event -> Prop) (w w' : World) :
  (forall pid c, ~ P (SpawnShell pid c)) ->
  emits_only P w w' -> spawns_among [] w w'.
Proof.
  intros HP (evs & Ht & Hevs). exists evs. split; [done |].
  assert (spawned evs = []) as ->; [| done].
  clear Ht. induction Hevs as [| e evs He _ IH]; [done |].
  rewrite spawned_cons, IH.
  destruct e; try done. exfalso. by apply (HP pid cmdline).
Qed.

Lemma launch_tasks_spawns (config : Config) (b : bool) (w : World) :
  spawns_among (launch_lines config b) w (gather (launch_tasks config b) w).2.
Proof.
  unfold launch_tasks, launch_lines.
  assert (forall tasks lines,
             Forall2 (fun (t : M unit) line => forall w, spawns_among [line] w (t w).2)
               tasks lines ->
             forall w, spawns_among lines w (gather tasks w).2) as Hg.
  { clear. induction 1 as [| t line ts ls Ht _ IH]; intros w; simpl.
    - exists []. by rewrite app_nil_r.
    - specialize (Ht w). destruct (t w) as [r w1].
      specialize (IH w1). destruct (gather ts w1) as [rs w2]. simpl in *.
      by apply (spawns_among_app [line] ls w w1 w2). }
  apply Hg. destruct b; simpl; repeat constructor;
    intros w0; apply run_background_process_spawns.
Qed.

Lemma launch_tasks_same_fs (config : Config) (b : bool) :
  preserves same_fs (gather (launch_tasks config b)).
Proof.
  apply preserves_gather; [apply _ |]. unfold launch_tasks.
  destruct b; simpl; repeat constructor; apply run_background_process_same_fs.
Qed.

Lemma grant_loop_emits (keys : list Path) :
  preserves (emits_only grant_event) (for_each keys grant_execute).
Proof.
  apply preserves_for_each; [apply _ |]. intros p w. rewrite grant_execute_run.
  destruct (exists_in w p); simpl.
  - exists [Chmod p 509; Log INFO ("Set execute permission for " +:+ PurePath.to_str p)].
    split; [simpl; by rewrite <- app_assoc |].
    apply Forall_cons_2; [by right |]. apply Forall_singleton. by left.
  - exists []. by rewrite app_nil_r.
Qed.

(** ** start_services after a successful batch *)

Lemma start_services_success (config : Config) (w : World) results w1 :
  gather (download_tasks (files_of config w)) w = (Ok results, w1) ->
  forallb id results = true ->
  exists w2,
    for_each (map fst (files_of config w)) grant_execute w1 = (Ok tt, w2) /\
    start_services config w
    = (gather (launch_tasks config (exists_in w2 (PHP_BIN config))) ;;
       logging_info "All services have been started.")
        (with_trace (fun t => t ++ [Log INFO "Configurations generated."]) w2).
Proof.
  intros Hrun Hall. rewrite (start_services_run _ _ _ _ Hrun), Hall. simpl.
  destruct (grant_loop_spec (map fst (files_of config w)) w1) as (w2 & Hloop & _).
  exists w2. split; [done |].
  rewrite bind_run, Hloop. rewrite bind_run. simpl. by rewrite bind_run.
Qed.

Lemma launch_phase_same_fs (config : Config) (b : bool) :
  preserves same_fs
    (gather (launch_tasks config b) ;;
     logging_info "All services have been started.").
Proof.
  apply preserves_bind; [apply _ | apply launch_tasks_same_fs |].
  by intros _ w.
Qed.






(** ** What start_services launches *)

Lemma spawns_among_performed {A : Type} (m : M A) (L : list string) (w : World) :
  spawns_among L w (m w).2 -> sublist (spawned (performed m w)) L.
Proof.
  intros (evs & Ht & Hs). unfold performed. by rewrite Ht, drop_app_length.
Qed.

Lemma launch_phase_spawns (config : Config) (b : bool) (w : World) :
  spawns_among (launch_lines config b) w
    ((gather (launch_tasks config b) ;;
      logging_info "All services have been started.") w).2.
Proof.
  rewrite bind_run. pose proof (launch_tasks_spawns config b w) as Hs.
  destruct (gather (launch_tasks config b) w) as [[l | e |] w1]; try done.
  simpl in *. rewrite <- (app_nil_r (launch_lines config b)).
  apply (spawns_among_app _ [] w w1); [done |].
  exists [Log INFO "All services have been started."]. by split.
Qed.

Lemma exists_in_same_fs (w w' : World) (p : Path) :
  fs w' = fs w -> exists_in w' p = exists_in w p.
Proof. unfold exists_in. by intros ->. Qed.

Lemma start_services_spawns (config : Config) (w : World) :
  spawns_among
    (launch_lines config (exists_in (start_services config w).2 (PHP_BIN config)))
    w (start_services config w).2.
Proof.
  destruct (gather_downloads_run (files_of config w) w) as (results & w1 & Hrun).
  assert (spawns_among [] w w1) as H1.
  { apply (spawns_among_none download_event).
    - intros pid c [H | H]; exact H.
    - pose proof (preserves_downloads (emits_only download_event)
                    (files_of config w) download_file_emits w) as H.
      by rewrite Hrun in H. }
  destruct (forallb id results) eqn:Hall.
  - destruct (start_services_success _ _ _ _ Hrun Hall) as (w2 & Hloop & ->).
    set (w3 := with_trace _ w2).
    pose proof (launch_phase_same_fs config (exists_in w2 (PHP_BIN config)) w3) as Hfs.
    unfold same_fs in Hfs. change (fs w3) with (fs w2) in Hfs.
    rewrite (exists_in_same_fs _ _ _ Hfs).
    apply (spawns_among_app [] _ w w3); [| apply launch_phase_spawns].
    apply (spawns_among_app [] [] w w1); [done |].
    apply (spawns_among_app [] [] w1 w2).
    + apply (spawns_among_none grant_event).
      * intros pid c [H | H]; exact H.
      * pose proof (grant_loop_emits (map fst (files_of config w)) w1) as H.
        by rewrite Hloop in H.
    + exists [Log INFO "Configurations generated."]. by split.
  - rewrite (start_services_run _ _ _ _ Hrun), Hall. simpl.
    destruct H1 as (evs & Ht & Hs). exists (evs ++ [abort_message]).
    simpl. rewrite Ht, <- app_assoc. split; [done |].
    unfold spawned in *. rewrite omap_app. simpl.
    apply sublist_nil_r in Hs as ->. apply sublist_nil_l.
Qed.

(** C10. The shells spawned by [start_services] run, in this order, the web
    command, the php command when the php binary exists, and the tunnel
    command, or some of them, and no other command; when the php binary does
    not exist, the web and tunnel commands at most.  (The launches leave the
    file system alone, so the binary exists at launch time exactly when it
    exists once [start_services] is done.)  The npm binary, a path different
    from those three binaries, is in none of these commands, downloaded or
    not. *)
Theorem npm_agent_never_launched (environ : gmap string string)
  (config : Config) (w : World) :
  Config_new environ = Ok config ->
  sublist (spawned (performed (start_services config) w))
    (if exists_in (start_services config w).2 (PHP_BIN config)
     then [launch_line (web_command config); launch_line (php_command config);
           launch_line (bot_command config)]
     else [launch_line (web_command config); launch_line (bot_command config)]) /\
  web_command config
  = PurePath.to_str (WEB_BIN config) +:+ " -c " +:+ PurePath.to_str (CONFIG_FILE config) /\
  php_command config = PurePath.to_str (PHP_BIN config) +:+ " -c 'config.yaml'" /\
  String.prefix (PurePath.to_str (BOT_BIN config) +:+ " tunnel ") (bot_command config)
  = true /\
  NPM_BIN config ∉ [WEB_BIN config; PHP_BIN config; BOT_BIN config].
Proof.
  intros Hc. repeat apply conj; try done.
  - pose proof (spawns_among_performed _ _ _ (start_services_spawns config w)) as H.
    unfold launch_lines in H.
    by destruct (exists_in (start_services config w).2 (PHP_BIN config)).
  - unfold bot_command.
    generalize (PurePath.to_str (BOT_BIN config)) as s.
    induction s as [| c s IH]; [done |].
    change (match ascii_dec c c with
            | left _ => String.prefix (s +:+ " tunnel ")
                          (s +:+
                           " tunnel --edge-ip-version auto --no-autoupdate --url http://localhost:" +:+
                           PyStr.of_int (PORT config))
            | right _ => false
            end = true).
    by destruct (ascii_dec c c).
  - destruct (Config_new_bins_distinct _ _ Hc) as (_ & _ & _ & Hw & Hb & Hp).
    rewrite !not_elem_of_cons. repeat split; try done. apply not_elem_of_nil.
Qed.

Lemma npm_agent_never_launched_witness :
  let config := config_of env_agent_v0 in
  sublist (spawned (performed (start_services config) world_npm))
    [launch_line (web_command config); launch_line (bot_command config)] /\
  spawned (performed (start_services config) world_npm)
  = ["nohup .cache/web -c .cache/config.json >/dev/null 2>&1 &";
     "nohup .cache/bot tunnel --edge-ip-version auto --no-autoupdate --url http://localhost:3000 >/dev/null 2>&1 &"] /\
  fs (start_services config world_npm).2 !! PurePath.of_str ".cache/npm"
  = Some (Reg "abcd" 509).
Proof.
  intros config.
  destruct (npm_agent_never_launched env_agent_v0 config world_npm eq_refl)
    as (H & _).
  assert (exists_in (start_services config world_npm).2 (PHP_BIN config) = false)
    as E by (vm_compute; reflexivity).
  rewrite E in H. split; [exact H |]. split; vm_compute; reflexivity.
Defined.

(** ** main *)














(** * Further properties *)

(** ** setup_environment *)

Lemma setup_environment_run (config : Config) (w : World) :
  setup_environment config w
  = let p := FILE_PATH config in
    let w0 := with_trace (fun t => t ++ [setup_message]) w in
    if is_dir w p then (Ok tt, w0)
    else match fs w !! p with
         | Some _ => (Raise (OSError "File exists"), w0)
         | None =>
             match fault w (SysMkdir p) with
             | Some msg => (Raise (OSError msg), w0)
             | None => (Ok tt, with_fs (insert p Dir)
                                 (with_trace (fun t => t ++ [Mkdir p]) w0))
             end
         end.
Proof.
  unfold setup_environment, Path_mkdir_exist_ok. rewrite bind_run. simpl.
  rewrite bind_run. simpl.
  change (is_dir (with_trace _ w) (FILE_PATH config))
    with (is_dir w (FILE_PATH config)).
  destruct (is_dir w (FILE_PATH config)); [done |].
  rewrite bind_run. simpl. destruct (fs w !! FILE_PATH config); [done |].
  rewrite bind_run, sys_run. simpl. by destruct (fault w _).
Qed.

(** X1. [setup_environment] succeeds exactly when the working directory is
    already a directory, or is absent and can be created.  After a success
    it is a directory, and every other entry of the file system is as
    before. *)
Theorem setup_environment_makes_directory (config : Config) (w : World) :
  ((setup_environment config w).1 = Ok tt <->
   is_dir w (FILE_PATH config) = true \/
   (fs w !! FILE_PATH config = None /\
    fault w (SysMkdir (FILE_PATH config)) = None)) /\
  ((setup_environment config w).1 = Ok tt ->
   is_dir (setup_environment config w).2 (FILE_PATH config) = true /\
   forall q, q <> FILE_PATH config ->
             fs (setup_environment config w).2 !! q = fs w !! q).
Proof.
  rewrite setup_environment_run. cbv zeta.
  destruct (is_dir w (FILE_PATH config)) eqn:Hd.
  { split; [split; [by left | done] |]. intros _. split; [exact Hd | done]. }
  destruct (fs w !! FILE_PATH config) as [n |] eqn:Hn.
  { split; [| done]. split; [done |]. by intros [? | [? _]]. }
  destruct (fault w (SysMkdir (FILE_PATH config))) eqn:Hf.
  { split; [| done]. split; [done |]. by intros [? | [_ ?]]. }
  split; [split; [by right | done] |]. intros _. simpl. split.
  - unfold is_dir. simpl. rewrite lookup_insert_eq. apply orb_true_r.
  - intros q Hq. by rewrite lookup_insert_ne.
Qed.

Lemma setup_environment_makes_directory_witness :
  is_dir (setup_environment default_config world_plain).2
    (PurePath.of_str ".cache") = true /\
  (setup_environment default_config world_cache_is_file).1 <> Ok tt.
Proof.
  destruct (setup_environment_makes_directory default_config world_plain)
    as [Hiff Hpost].
  destruct (setup_environment_makes_directory default_config world_cache_is_file)
    as [Hiff' _].
  split.
  - apply Hpost. apply Hiff. right. split; reflexivity.
  - intros H. apply Hiff' in H as [H | [H _]]; discriminate H.
Defined.

(** X2. [setup_environment] can be run again: after a run that succeeded,
    a second run succeeds too, leaves the file system as it is and performs
    nothing but its log line (no [mkdir]). *)
Theorem setup_environment_twice (config : Config) (w w1 : World) :
  setup_environment config w = (Ok tt, w1) ->
  (setup_environment config w1).1 = Ok tt /\
  fs (setup_environment config w1).2 = fs w1 /\
  performed (setup_environment config) w1 = [setup_message].
Proof.
  intros Hrun.
  destruct (setup_environment_makes_directory config w) as [_ Hpost].
  rewrite Hrun in Hpost. destruct (Hpost eq_refl) as [Hd _]. simpl in Hd.
  unfold performed. rewrite setup_environment_run. cbv zeta. rewrite Hd.
  simpl. by rewrite drop_app_length.
Qed.

Lemma setup_environment_twice_witness :
  performed (setup_environment default_config)
    (setup_environment default_config world_plain).2
  = [setup_message].
Proof.
  apply (setup_environment_twice default_config world_plain
           (setup_environment default_config world_plain).2).
  reflexivity.
Defined.

(** X3. A failure of [setup_environment] is fatal before anything else:
    [main] raises the same [OSError], and by then it has only written the
    set-up log line; no thread was started, no process spawned, and the file
    system is as it was. *)
Theorem setup_failure_stops_main (config : Config) (fuel : nat) (w w1 : World)
  (e : exn) :
  setup_environment config w = (Raise e, w1) ->
  main config fuel w = (Raise e, w1) /\
  (exists msg, e = OSError msg) /\
  performed (main config fuel) w = [setup_message] /\
  threads w1 = threads w /\ procs w1 = procs w /\ fs w1 = fs w.
Proof.
  intros Hrun.
  assert (main config fuel w = (Raise e, w1)) as Hmain.
  { unfold main. by rewrite bind_run, Hrun. }
  split; [exact Hmain |]. unfold performed. rewrite Hmain. clear Hmain.
  rewrite setup_environment_run in Hrun. cbv zeta in Hrun.
  destruct (is_dir w (FILE_PATH config)); [done |].
  destruct (fs w !! FILE_PATH config).
  - injection Hrun as <- <-. simpl. rewrite drop_app_length. eauto 10.
  - destruct (fault w (SysMkdir (FILE_PATH config))); [| done].
    injection Hrun as <- <-. simpl. rewrite drop_app_length. eauto 10.
Qed.

Lemma setup_failure_stops_main_witness :
  main default_config 2 world_cache_is_file
  = (Raise (OSError "File exists"),
     with_trace (fun t => t ++ [setup_message]) world_cache_is_file) /\
  (main default_config 2 world_no_mkdir).1 = Raise (OSError "Permission denied").
Proof.
  split.
  - apply (setup_failure_stops_main default_config 2 world_cache_is_file).
    reflexivity.
  - destruct (setup_failure_stops_main default_config 2 world_no_mkdir
                (setup_environment default_config world_no_mkdir).2
                (OSError "Permission denied") eq_refl) as [-> _].
    reflexivity.
Defined.

(** ** download_file: what is left on disk and in the log *)

Lemma truncated_mode (w : World) (p : Path) :
  truncated w p = Reg EmptyString (mode_after_open w p).
Proof. unfold truncated, mode_after_open. by destruct (fs w !! p) as [[] |]. Qed.

(** The write loop in full: what it stores, what it performs, how it
    ends. *)
Lemma write_chunks_run (p : Path) (fin : stream_end) (chunks : list string) :
  forall (k : nat) (w : World) d m,
    fs w !! p = Some (Reg d m) ->
    exists r w',
      write_chunks p k chunks fin w = (r, w') /\
      fs w' !! p = Some (Reg (d +:+ body (accepted (fault w) p k chunks)) m) /\
      trace w' = trace w ++ (Write p <$> accepted (fault w) p k chunks) /\
      (r = Ok tt /\ accepted (fault w) p k chunks = chunks /\ fin = StreamComplete
       \/ (exists e, r = Raise e /\ forall code, e <> HTTPStatusError code) /\
          (accepted (fault w) p k chunks <> chunks \/ fin <> StreamComplete)).
Proof.
  induction chunks as [| c cs IH]; intros k w d m Hp.
  - simpl. exists (match fin with
                   | StreamComplete => Ok tt
                   | StreamReadError => Raise ReadError
                   | StreamTimeout => Raise TimeoutException
                   end), w.
    rewrite append_empty_r, app_nil_r.
    destruct fin; repeat split; try done; [by left | right | right];
      (split; [by eexists | by right]).
  - simpl. rewrite bind_run, file_write_run.
    destruct (fault w (SysWrite p k)) as [msg |] eqn:Hf.
    + eexists _, w. split; [reflexivity |].
      rewrite append_empty_r, app_nil_r. repeat split; try done.
      right. split; [by eexists | by left].
    + set (w1 := with_fs _ _).
      assert (fs w1 !! p = Some (Reg (d +:+ c) m)) as Hp1.
      { subst w1. simpl. by rewrite lookup_alter_eq, Hp. }
      destruct (IH (S k) w1 _ _ Hp1) as (r & w' & Hrun & Hfs & Ht & Hend).
      change (fault w1) with (fault w) in *.
      exists r, w'. split; [exact Hrun |]. split.
      { rewrite Hfs. simpl. by rewrite append_assoc. }
      split.
      { rewrite Ht. subst w1. simpl. by rewrite <- app_assoc. }
      destruct Hend as [(-> & Hacc & ->) | (He & Hne)].
      * left. by rewrite Hacc.
      * right. split; [done |]. destruct Hne as [Hne | Hne]; [left | by right].
        intros [= Heq]. done.
Qed.

Lemma download_failed_unexpected (file_name : string) (e : exn) (w : World) :
  (forall code, e <> HTTPStatusError code) ->
  download_failed file_name e w
  = (Ok false,
     with_trace (fun t => t ++ [Log ERROR
                                  ("An unexpected error occurred while downloading "
                                   +:+ file_name +:+ ": " +:+ exn_str e)]) w).
Proof. intros He. destruct e; try done. by destruct (He status_code). Qed.

(** A download that does not get to open its destination. *)
Lemma download_file_closed (file_name url : string) (target : Path) (w : World) :
  ~ opens_destination w url target ->
  exists msg w',
    download_file file_name url target w = (Ok false, w') /\
    fs w' = fs w /\
    trace w' = trace w ++ [start_line file_name url; HttpGet url 60; Log ERROR msg] /\
    ((exists st chunks fin,
         remote w url = Response st chunks fin /\ ~ 200 <= st <= 299 /\
         msg = "Download failed for " +:+ file_name +:+ ": HTTP " +:+ PyStr.of_int st)
     \/
     (forall st chunks fin, remote w url = Response st chunks fin -> 200 <= st <= 299) /\
     exists detail,
       msg = "An unexpected error occurred while downloading "
             +:+ file_name +:+ ": " +:+ detail).
Proof.
  intros Hno. unfold download_file. rewrite bind_run. unfold logging_info at 1.
  simpl. unfold try_except, stream_to_file.
  rewrite bind_run, client_stream_GET_run. cbv zeta.
  change (remote (with_trace _ w) url) with (remote w url).
  destruct (remote w url) as [| | st chunks fin] eqn:Hr.
  - eexists _, _. split; [reflexivity |]. simpl.
    split; [done |]. split; [by rewrite <- !app_assoc |].
    right. split; [done | by eexists].
  - eexists _, _. split; [reflexivity |]. simpl.
    split; [done |]. split; [by rewrite <- !app_assoc |].
    right. split; [done | by eexists].
  - rewrite bind_run. unfold raise_for_status.
    destruct ((200 <=? st) && (st <=? 299)) eqn:Hst; simpl.
    2: { eexists _, _. split; [reflexivity |]. simpl.
         split; [done |]. split; [by rewrite <- !app_assoc |].
         left. exists st, chunks, fin. split; [done |]. split; [| done].
         apply andb_false_iff in Hst as [?%Z.leb_gt | ?%Z.leb_gt]; lia. }
    apply andb_true_iff in Hst as [?%Z.leb_le ?%Z.leb_le].
    rewrite bind_run, open_wb_run.
    change (is_dir (with_trace _ (with_trace _ w)) target) with (is_dir w target).
    change (fault (with_trace _ (with_trace _ w))) with (fault w).
    destruct (is_dir w target) eqn:Hd.
    { eexists _, _. split; [reflexivity |]. simpl.
      split; [done |]. split; [by rewrite <- !app_assoc |].
      right. split; [| by eexists]. by intros ? ? ? [= <- _ _]. }
    destruct (fault w (SysOpen target)) eqn:Ho.
    { eexists _, _. split; [reflexivity |]. simpl.
      split; [done |]. split; [by rewrite <- !app_assoc |].
      right. split; [| by eexists]. by intros ? ? ? [= <- _ _]. }
    destruct Hno. exists st, chunks, fin. repeat split; done.
Qed.

(** A download that opens its destination. *)
Lemma download_file_opened (file_name url : string) (target : Path) (w : World)
  st chunks fin :
  remote w url = Response st chunks fin ->
  200 <= st <= 299 ->
  is_dir w target = false ->
  fault w (SysOpen target) = None ->
  let acc := accepted (fault w) target 0 chunks in
  exists b final w',
    download_file file_name url target w = (Ok b, w') /\
    fs w' !! target = Some (Reg (body acc) (mode_after_open w target)) /\
    trace w'
    = trace w ++ [start_line file_name url; HttpGet url 60; OpenWrite target]
      ++ (Write target <$> acc) ++ [final] /\
    (b = true /\ acc = chunks /\ fin = StreamComplete /\
     final = success_line target
     \/
     b = false /\ (acc <> chunks \/ fin <> StreamComplete) /\
     exists detail,
       final = Log ERROR ("An unexpected error occurred while downloading "
                          +:+ file_name +:+ ": " +:+ detail)).
Proof.
  intros Hr Hlo Hd Ho acc. unfold download_file. rewrite bind_run.
  unfold logging_info at 1. simpl. unfold try_except, stream_to_file.
  rewrite bind_run, client_stream_GET_run. cbv zeta.
  change (remote (with_trace _ w) url) with (remote w url). rewrite Hr.
  rewrite bind_run. unfold raise_for_status.
  assert ((200 <=? st) && (st <=? 299) = true) as ->.
  { apply andb_true_iff. split; apply Z.leb_le; lia. }
  simpl. rewrite bind_run, open_wb_run.
  change (is_dir (with_trace _ (with_trace _ w)) target) with (is_dir w target).
  change (fault (with_trace _ (with_trace _ w))) with (fault w).
  rewrite Hd, Ho. cbv zeta.
  set (w2 := with_fs _ _).
  assert (fs w2 !! target = Some (Reg EmptyString (mode_after_open w target)))
    as H2.
  { subst w2. simpl. rewrite lookup_insert_eq, truncated_mode. reflexivity. }
  destruct (write_chunks_run target fin chunks 0 w2 _ _ H2)
    as (r & w3 & Hrun & Hfs & Ht & Hend).
  change (fault w2) with (fault w) in *. fold acc in Hfs, Ht, Hend.
  rewrite bind_run, Hrun.
  assert (trace w3
          = trace w ++ [start_line file_name url; HttpGet url 60; OpenWrite target]
            ++ (Write target <$> acc)) as Ht3.
  { rewrite Ht. subst w2. simpl. by rewrite <- !app_assoc. }
  destruct Hend as [(-> & Hacc & ->) | ((e & -> & He) & Hne)].
  - rewrite bind_run. simpl. eexists true, _, _. split; [reflexivity |]. simpl.
    split; [exact Hfs |]. split.
    + rewrite Ht3, <- !app_assoc. reflexivity.
    + left. done.
  - rewrite (download_failed_unexpected _ _ _ He).
    eexists false, _, _. split; [reflexivity |]. simpl.
    split; [exact Hfs |]. split.
    + rewrite Ht3, <- !app_assoc. reflexivity.
    + right. split; [done |]. split; [done |]. by eexists.
Qed.

Lemma opens_destination_dec (w : World) (url : string) (target : Path) :
  opens_destination w url target \/ ~ opens_destination w url target.
Proof.
  unfold opens_destination.
  destruct (remote w url) as [| | st chunks fin] eqn:Hr;
    [right; by intros (? & ? & ? & ? & _) .. |].
  destruct (decide (200 <= st <= 299)) as [Hst | Hst].
  2: { right. intros (? & ? & ? & [= <- _ _] & ? & _). done. }
  destruct (is_dir w target) eqn:Hd;
    [right; by intros (? & ? & ? & _ & _ & ? & _) |].
  destruct (fault w (SysOpen target)) eqn:Ho;
    [right; by intros (? & ? & ? & _ & _ & _ & ?) |].
  left. by exists st, chunks, fin.
Qed.

(** X4. A download that fails before its destination is opened (no
    connection, a timeout while connecting, a status outside 2xx, a
    destination that is a directory or cannot be opened) returns [False]
    and leaves the whole file system as it was: a binary from an earlier run
    stays intact.  It performs a request and writes one [ERROR] line. *)
Theorem failed_request_leaves_disk (file_name url : string) (target : Path)
  (w : World) :
  ~ opens_destination w url target ->
  (download_file file_name url target w).1 = Ok false /\
  fs (download_file file_name url target w).2 = fs w /\
  exists msg,
    performed (download_file file_name url target) w
    = [start_line file_name url; HttpGet url 60; Log ERROR msg].
Proof.
  intros Hno.
  destruct (download_file_closed file_name url target w Hno)
    as (msg & w' & Hrun & Hfs & Ht & _).
  unfold performed. rewrite Hrun. simpl. split; [done |]. split; [done |].
  exists msg. by rewrite Ht, drop_app_length.
Qed.

Lemma failed_request_leaves_disk_witness :
  let w := with_fs (insert (PurePath.of_str "d/web") (Reg "old" 509)) world_failing in
  fs (download_file "web" "https://h/404" (PurePath.of_str "d/web") w).2
     !! PurePath.of_str "d/web"
  = Some (Reg "old" 509).
Proof.
  intros w.
  destruct (failed_request_leaves_disk "web" "https://h/404"
              (PurePath.of_str "d/web") w) as (_ & -> & _).
  - intros (st & chunks & fin & Hr & Hst & _).
    vm_compute in Hr. injection Hr as <- _ _. lia.
  - reflexivity.
Defined.



#[local] Instance keeps_existing_preorder : PreOrder keeps_existing.
Proof. split; unfold keeps_existing; [by intros w | intros w1 w2 w3; eauto]. Qed.

Lemma exists_in_lookup (w w' : World) (q : Path) :
  (is_Some (fs w !! q) -> is_Some (fs w' !! q)) ->
  exists_in w q = true -> exists_in w' q = true.
Proof.
  unfold exists_in. intros H [Hq | Hq]%orb_true_iff; apply orb_true_iff;
    [by left | right].
  apply bool_decide_eq_true. apply bool_decide_eq_true in Hq. auto.
Qed.




(** X7. The log tells how a download ended.  Between the opening line and
    one closing line a download logs nothing; the closing line is the
    success line when the result is [True], and an [ERROR] line that names
    the file when the result is [False]: with the HTTP status when the
    status was outside 2xx, as an unexpected error otherwise. *)
Theorem download_outcome_is_logged (file_name url : string) (target : Path)
  (w : World) :
  exists front final,
    performed (download_file file_name url target) w
    = start_line file_name url :: front ++ [final] /\
    Forall is_download front /\
    ((download_file file_name url target w).1 = Ok true /\
     final = success_line target
     \/
     (download_file file_name url target w).1 = Ok false /\
     ((exists st chunks fin,
          remote w url = Response st chunks fin /\ ~ 200 <= st <= 299 /\
          final = Log ERROR ("Download failed for " +:+ file_name +:+ ": HTTP "
                             +:+ PyStr.of_int st))
      \/
      (forall st chunks fin,
          remote w url = Response st chunks fin -> 200 <= st <= 299) /\
      exists detail,
        final = Log ERROR ("An unexpected error occurred while downloading "
                           +:+ file_name +:+ ": " +:+ detail))).
Proof.
  unfold performed.
  destruct (opens_destination_dec w url target)
    as [(st & chunks & fin & Hr & Hst & Hd & Ho) | Hno].
  - destruct (download_file_opened file_name url target w _ _ _ Hr Hst Hd Ho)
      as (b & final & w' & -> & _ & Ht & Hend).
    simpl. rewrite Ht, drop_app_length.
    exists ([HttpGet url 60; OpenWrite target]
            ++ (Write target <$> accepted (fault w) target 0 chunks)), final.
    split; [by rewrite <- !app_assoc |]. split.
    + apply Forall_app. split; [by repeat constructor |].
      apply Forall_fmap, Forall_forall. by intros.
    + destruct Hend as [(-> & _ & _ & ->) | (-> & _ & detail & ->)];
        [by left | right].
      split; [done |]. right. split; [| by exists detail].
      intros st' ? ? Hr'. rewrite Hr in Hr'. by injection Hr' as <- _ _.
  - destruct (download_file_closed file_name url target w Hno)
      as (msg & w' & -> & _ & Ht & Hmsg).
    simpl. rewrite Ht, drop_app_length.
    exists [HttpGet url 60], (Log ERROR msg).
    split; [done |]. split; [by repeat constructor |]. right.
    split; [done |].
    destruct Hmsg as [(st & chunks & fin & Hr & Hst & ->)
                     | (Hok & detail & ->)].
    + left. by exists st, chunks, fin.
    + right. split; [done | by exists detail].
Qed.

Lemma download_outcome_is_logged_witness :
  last (performed (download_file "web" "https://h/404" (PurePath.of_str "d/web"))
          world_failing)
  = Some (Log ERROR "Download failed for web: HTTP 404").
Proof.
  destruct (download_outcome_is_logged "web" "https://h/404"
              (PurePath.of_str "d/web") world_failing)
    as (front & final & -> & _ & [[Hb _] | (_ & [H | [H _]])]).
  - vm_compute in Hb. discriminate Hb.
  - destruct H as (st & chunks & fin & Hr & _ & ->).
    vm_compute in Hr. injection Hr as <- _ _.
    by rewrite last_cons, last_snoc.
  - specialize (H 404 ["no"] StreamComplete eq_refl). lia.
Defined.

(** ** start_services: what it keeps *)

Lemma preserves_for_each_in (R : relation World) `{!PreOrder R} {A : Type}
  (l : list A) (f : A -> M unit) :
  (forall a, a ∈ l -> preserves R (f a)) -> preserves R (for_each l f).
Proof.
  induction l as [| a l IH]; intros Hf; simpl.
  - by apply (@preserves_ret R _).
  - apply (@preserves_bind R _).
    + apply Hf, list_elem_of_here.
    + intros _. apply IH. intros b Hb. by apply Hf, list_elem_of_further.
Qed.

Lemma files_to_download_keys (config : Config) (arch : string) (p : Path) :
  p ∈ map fst (files_to_download config arch) ->
  p ∈ [WEB_BIN config; BOT_BIN config; PHP_BIN config; NPM_BIN config].
Proof.
  assert (forall d k v q, q ∈ (dict_setitem d k v).*1 -> q ∈ d.*1 \/ q = k) as Hset.
  { intros d k v q. rewrite dict_setitem_keys. case_decide; [by left |].
    intros [? | ?%list_elem_of_singleton]%elem_of_app; [by left | by right]. }
  unfold files_to_download. change (map fst) with (fmap (M:=list) (@fst Path string)).
  intros Hp. rewrite !elem_of_cons.
  repeat case_match; repeat (apply Hset in Hp as [Hp | Hp]); subst;
    try (by apply elem_of_nil in Hp); tauto.
Qed.

Section ServicesPreserves.
Context (R : relation World) `{!PreOrder R} (K : Path -> Prop).
Hypothesis R_emit : forall e, preserves R (emit e).
Hypothesis R_open :
  forall p, K p -> preserves R (modify (fun w => with_fs (insert p (truncated w p)) w)).
Hypothesis R_write :
  forall p c, K p -> preserves R (modify (with_fs (alter (append_data c) p))).
Hypothesis R_chmod :
  forall p mode, K p -> preserves R (modify (with_fs (alter (set_mode mode) p))).
Hypothesis R_procs : forall f, preserves R (modify (with_procs f)).

Lemma preserves_grant_execute (p : Path) : K p -> preserves R (grant_execute p).
Proof using R_emit R_chmod PreOrder0.
  intros Hp. unfold grant_execute, Path_chmod, Path_exists, logging_info.
  pres_split; auto.
Qed.

Lemma preserves_run_background_process (name command : string) :
  preserves R (run_background_process name command).
Proof using R_emit R_procs PreOrder0.
  unfold run_background_process, create_subprocess_shell, process_wait,
    logging_info.
  pres_split; auto.
Qed.

Lemma preserves_launch_tasks (config : Config) (b : bool) :
  preserves R (gather (launch_tasks config b)).
Proof using R_emit R_procs PreOrder0.
  apply (@preserves_gather R _). unfold launch_tasks.
  destruct b; simpl; repeat constructor; apply preserves_run_background_process.
Qed.

Lemma preserves_start_services (config : Config) :
  (forall p, p ∈ [WEB_BIN config; BOT_BIN config; PHP_BIN config; NPM_BIN config]
             -> K p) ->
  preserves R (start_services config).
Proof using All.
  intros HK. unfold start_services, platform_machine.
  apply (@preserves_bind R _); [apply (@preserves_gets R _) | intros machine_name].
  cbv zeta. apply (@preserves_bind R _).
  { apply (@preserves_gather R _). unfold download_tasks.
    apply Forall_map, Forall_forall. intros [p url] Hin.
    assert (K p) as Hp.
    { apply HK, (files_to_download_keys config (architecture machine_name)).
      change (map fst) with (fmap (M:=list) (@fst Path string)).
      apply list_elem_of_fmap. by exists (p, url). }
    apply (preserves_download_file R p); auto. }
  intros results. destruct (negb (forallb id results)).
  { apply R_emit. }
  apply (@preserves_bind R _).
  { apply (@preserves_for_each_in R _). intros p Hp.
    apply preserves_grant_execute, HK.
    by apply (files_to_download_keys config (architecture machine_name)). }
  intros _. unfold logging_info, Path_exists. pres_split; auto.
  apply preserves_launch_tasks.
Qed.
End ServicesPreserves.

Lemma start_services_surroundings (config : Config) :
  preserves same_surroundings (start_services config).
Proof. apply (preserves_start_services _ (fun _ => True)); by intros. Qed.


Lemma start_services_frame (config : Config) (q : Path) :
  q ∉ [WEB_BIN config; BOT_BIN config; PHP_BIN config; NPM_BIN config] ->
  preserves (fs_frame q) (start_services config).
Proof.
  intros Hq. apply (preserves_start_services _ (fun p => p <> q)).
  - by intros.
  - intros p Hp w. unfold fs_frame. simpl. by rewrite lookup_insert_ne.
  - intros p c Hp w. unfold fs_frame. simpl. by rewrite lookup_alter_ne.
  - intros p mode Hp w. unfold fs_frame. simpl. by rewrite lookup_alter_ne.
  - by intros.
  - intros p Hp Heq. by subst.
Qed.

Lemma start_services_keeps_existing (config : Config) :
  preserves keeps_existing (start_services config).
Proof.
  apply (preserves_start_services _ (fun _ => True)).
  - by intros e w q.
  - intros p Hp w q. apply (exists_in_lookup w). simpl.
    destruct (decide (p = q)) as [<- | Hne].
    + rewrite lookup_insert_eq. by eexists.
    + by rewrite lookup_insert_ne.
  - intros p c Hp w q. apply (exists_in_lookup w). simpl.
    destruct (decide (p = q)) as [<- | Hne].
    + rewrite lookup_alter_eq. by rewrite fmap_is_Some.
    + by rewrite lookup_alter_ne.
  - intros p mode Hp w q. apply (exists_in_lookup w). simpl.
    destruct (decide (p = q)) as [<- | Hne].
    + rewrite lookup_alter_eq. by rewrite fmap_is_Some.
    + by rewrite lookup_alter_ne.
  - by intros f w q.
  - done.
Qed.




(** ** start_services: the launches *)

#[local] Instance same_existence_preorder : PreOrder same_existence.
Proof.
  split; unfold same_existence; [by intros w | intros w1 w2 w3 H1 H2 p].
  by rewrite H2, H1.
Qed.

Lemma exists_in_alter (w : World) (p q : Path) (f : node -> node) :
  exists_in (with_fs (alter f p) w) q = exists_in w q.
Proof.
  unfold exists_in. simpl. f_equal. apply bool_decide_ext.
  destruct (decide (p = q)) as [<- | Hne].
  - rewrite lookup_alter_eq. by rewrite fmap_is_Some.
  - by rewrite lookup_alter_ne.
Qed.

Lemma grant_loop_same_existence (keys : list Path) :
  preserves same_existence (for_each keys grant_execute).
Proof.
  apply preserves_for_each; [apply _ |]. intros p w q.
  rewrite grant_execute_run. destruct (exists_in w p); [| done].
  simpl. apply (exists_in_alter (with_trace _ w)).
Qed.

Lemma launch_tasks_jobs (config : Config) (b : bool) :
  launch_tasks config b
  = map (fun j => run_background_process j.1 j.2) (launch_jobs config b).
Proof. by destruct b. Qed.

Lemma launch_lines_jobs (config : Config) (b : bool) :
  launch_lines config b = launch_line <$> (launch_jobs config b).*2.
Proof. by destruct b. Qed.


(** A batch of launches of which the system refuses one. *)
Lemma gather_jobs_refused (jobs : list (string * string)) :
  forall w j msg,
    j ∈ jobs -> fault w (SysSpawn (launch_line j.2)) = Some msg ->
    exists msg' w',
      gather (map (fun j => run_background_process j.1 j.2) jobs) w
      = (Raise (OSError msg'), w').
Proof.
  induction jobs as [| [name command] jobs IH]; intros w j msg Hj Hf.
  - by apply elem_of_nil in Hj.
  - simpl. rewrite run_background_process_run. cbv zeta.
    destruct (fault w (SysSpawn (launch_line command))) as [msg0 |] eqn:Hf0.
    + destruct (gather _ _) as [rs w']. by eexists _, _.
    + apply elem_of_cons in Hj as [-> | Hj]; [simpl in Hf; congruence |].
      set (w1 := with_trace _ (with_trace _ _)).
      destruct (IH w1 j msg Hj Hf) as (msg' & w' & ->). by eexists _, _.
Qed.



Lemma grant_loop_surroundings (keys : list Path) :
  preserves same_surroundings (for_each keys grant_execute).
Proof.
  apply preserves_for_each; [apply _ |]. intros p w.
  rewrite grant_execute_run. by destruct (exists_in w p).
Qed.







(** ** main: how it ends *)

Lemma setup_environment_surroundings (config : Config) :
  preserves same_surroundings (setup_environment config).
Proof.
  intros w. rewrite setup_environment_run. cbv zeta.
  repeat case_match; done.
Qed.

Lemma main_after_setup (config : Config) (fuel : nat) (w w1 : World) :
  setup_environment config w = (Ok tt, w1) ->
  main config fuel w
  = (start_services config ;;
     logging_info "Extracting domain and generating subscription..." ;;
     logging_info "Setup complete. Application is running." ;;
     idle fuel) (Thread_start true (run_server config) w1).2.
Proof.
  intros Hsetup. unfold main. by rewrite bind_run, Hsetup, bind_run.
Qed.

Lemma fault_after_setup (config : Config) (w w1 : World) :
  setup_environment config w = (Ok tt, w1) ->
  fault (Thread_start true (run_server config) w1).2 = fault w.
Proof.
  intros Hsetup. pose proof (setup_environment_surroundings config w) as H.
  rewrite Hsetup in H. by destruct H as (_ & _ & _ & H & _).
Qed.

(** X11. A refused spawn is fatal.  [run_background_process] then raises
    the [OSError] after its first log line: no process is recorded, nothing
    is waited for, no start is confirmed.  When every download succeeded
    and the system refuses the spawn of one of the commands to launch,
    [start_services] raises an [OSError] and so does [main], for any number
    of rounds: the script ends instead of idling. *)
Theorem refused_spawn_stops_main (config : Config) :
  (forall name command w msg,
      fault w (SysSpawn (launch_line command)) = Some msg ->
      run_background_process name command w
      = (Raise (OSError msg),
         with_trace (fun t => t ++ [Log INFO ("Starting background process: "
                                              +:+ name)]) w)) /\
  (forall w w1 results w3 line msg,
      setup_environment config w = (Ok tt, w1) ->
      let w2 := (Thread_start true (run_server config) w1).2 in
      gather (download_tasks (files_of config w2)) w2 = (Ok results, w3) ->
      forallb id results = true ->
      line ∈ launch_lines config (exists_in w3 (PHP_BIN config)) ->
      fault w (SysSpawn line) = Some msg ->
      exists msg',
        (start_services config w2).1 = Raise (OSError msg') /\
        forall fuel, (main config fuel w).1 = Raise (OSError msg')).
Proof.
  split.
  - intros name command w msg Hf. rewrite run_background_process_run.
    cbv zeta. by rewrite Hf.
  - intros w w1 results w3 line msg Hsetup w2 Hrun Hall Hline Hf.
    assert (exists msg', (start_services config w2).1 = Raise (OSError msg'))
      as (msg' & Hs).
    { destruct (start_services_success _ _ _ _ Hrun Hall) as (w4 & Hloop & ->).
      pose proof (preserves_downloads same_surroundings
                    (files_of config w2) download_file_surroundings w2) as Hs1.
      pose proof (grant_loop_surroundings (map fst (files_of config w2)) w3) as Hs2.
      pose proof (grant_loop_same_existence (map fst (files_of config w2)) w3) as Hx2.
      rewrite Hrun in Hs1. rewrite Hloop in Hs2, Hx2. simpl in Hs1, Hs2, Hx2.
      destruct Hs1 as (_ & _ & _ & Hf1 & _). destruct Hs2 as (_ & _ & _ & Hf2 & _).
      rewrite (Hx2 (PHP_BIN config)).
      rewrite launch_lines_jobs in Hline.
      apply list_elem_of_fmap in Hline as (c & -> & Hc).
      apply list_elem_of_fmap in Hc as (j & -> & Hj).
      rewrite bind_run, launch_tasks_jobs.
      set (w5 := with_trace _ w4).
      destruct (gather_jobs_refused _ w5 j msg Hj) as (msg' & w6 & ->).
      { change (fault w5) with (fault w4).
        rewrite Hf2, Hf1. unfold w2.
        by rewrite (fault_after_setup _ _ _ Hsetup). }
      by exists msg'. }
    exists msg'. split; [exact Hs |]. intros fuel.
    rewrite (main_after_setup _ _ _ _ Hsetup), bind_run. fold w2.
    by destruct (start_services config w2) as [[] w'];
      simpl in Hs; try discriminate Hs; injection Hs as ->.
Qed.

Lemma refused_spawn_stops_main_witness :
  (main default_config 4 world_no_spawn).1
  = Raise (OSError "Resource temporarily unavailable").
Proof.
  destruct (proj2 (refused_spawn_stops_main default_config) world_no_spawn
              (setup_environment default_config world_no_spawn).2
              [true; true]
              (gather (download_tasks
                         (files_of default_config
                            (Thread_start true (run_server default_config)
                               (setup_environment default_config world_no_spawn).2).2))
                 (Thread_start true (run_server default_config)
                    (setup_environment default_config world_no_spawn).2).2).2
              (launch_line (bot_command default_config))
              "Resource temporarily unavailable")
    as (msg' & Hs & Hmain).
  - vm_compute. reflexivity.
  - vm_compute. reflexivity.
  - reflexivity.
  - apply list_elem_of_In. vm_compute. right. left. reflexivity.
  - vm_compute. reflexivity.
  - rewrite Hmain. rewrite <- Hs. vm_compute. reflexivity.
Defined.






(** ** The derived paths *)

Lemma Config_new_derived (environ : gmap string string) (config : Config) :
  Config_new environ = Ok config ->
  Forall (fun pn => pn.1 = mkPath (p_root (FILE_PATH config))
                             (p_segs (FILE_PATH config) ++ [pn.2]))
    (derived_paths config).
Proof.
  unfold Config_new. destruct (py_int _); intros [= <-]; simpl.
  unfold derived_paths. simpl.
  repeat (apply Forall_cons_2; [by apply joinpath_name |]). apply Forall_nil_2.
Qed.

Lemma derived_ne_parent (p : Path) (name : string) :
  mkPath (p_root p) (p_segs p ++ [name]) <> p.
Proof.
  destruct p as [r segs]. simpl. intros [= H].
  apply (f_equal length) in H. rewrite length_app in H. simpl in H. lia.
Qed.

(** X14. Every path [Config] derives is a direct child of the working
    directory, named as the source names it, whatever [FILE_PATH] holds;
    the eight derived paths are pairwise different and none of them is the
    working directory itself. *)
Theorem derived_paths_under_working_directory (environ : gmap string string)
  (config : Config) :
  Config_new environ = Ok config ->
  Forall (fun pn => parent_of pn.1 = FILE_PATH config /\
                    PurePath.name pn.1 = pn.2)
    (derived_paths config) /\
  NoDup (derived_paths config).*1 /\
  FILE_PATH config ∉ (derived_paths config).*1.
Proof.
  intros Hc. pose proof (Config_new_derived _ _ Hc) as Hd.
  split; [| split].
  - eapply Forall_impl; [exact Hd |]. intros [p name] Hp. simpl in *. subst p.
    unfold parent_of, PurePath.name. simpl.
    rewrite removelast_last, last_last. by destruct (FILE_PATH config).
  - unfold derived_paths in *. simpl in *.
    repeat match goal with
           | H : Forall _ (_ :: _) |- _ => apply Forall_cons in H as [? H]
           end.
    simpl in *.
    repeat match goal with H : _ = mkPath _ _ |- _ => rewrite H; clear H end.
    repeat (apply NoDup_cons_2;
            [rewrite ?not_elem_of_cons; repeat split;
             try apply not_elem_of_nil;
             intros [= Heq]; by apply app_inv_head in Heq |]).
    apply NoDup_nil_2.
  - intros Hin. apply list_elem_of_fmap in Hin as ([p name] & Hp & Hin).
    simpl in Hp. subst p.
    apply (proj1 (Forall_forall _ _) Hd) in Hin. simpl in Hin.
    symmetry in Hin. by apply derived_ne_parent in Hin.
Qed.

Lemma derived_paths_under_working_directory_witness :
  parent_of (WEB_BIN (config_of env_agent_v1)) = PurePath.of_str ".cache" /\
  NoDup (derived_paths default_config).*1.
Proof.
  destruct (derived_paths_under_working_directory env_agent_v1
              (config_of env_agent_v1) eq_refl) as (H & _).
  assert (Config_new ∅ = Ok default_config) as Hdef by reflexivity.
  destruct (derived_paths_under_working_directory ∅ default_config Hdef)
    as (_ & Hnd & _).
  split; [| exact Hnd].
  apply (proj1 (Forall_forall _ _) H (WEB_BIN (config_of env_agent_v1), "web")).
  apply list_elem_of_In. vm_compute. tauto.
Defined.

Lemma main_frame (config : Config) (fuel : nat) (q : Path) :
  q <> FILE_PATH config ->
  q ∉ [WEB_BIN config; BOT_BIN config; PHP_BIN config; NPM_BIN config] ->
  preserves (fs_frame q) (main config fuel).
Proof.
  intros Hq Hbins. unfold main.
  apply preserves_bind; [apply _ | | intros _].
  { intros w. rewrite setup_environment_run. cbv zeta.
    repeat case_match; try done.
    unfold fs_frame. simpl. by rewrite lookup_insert_ne. }
  apply preserves_bind; [apply _ | by intros w0 | intros _].
  apply preserves_bind; [apply _ | by apply start_services_frame | intros _].
  apply preserves_bind; [apply _ | by intros w0 | intros _].
  apply preserves_bind; [apply _ | by intros w0 | intros _].
  apply preserves_idle; [apply _ | by intros e w0].
Qed.

(** X15. [main] writes nothing but the working directory and the four
    binary paths: every other entry of the file system is, at any point of
    the run, as it was at the start.  In particular the configuration file
    that the web command names with [-c], the subscription file, the node
    list and the boot log are never created nor changed by the script. *)
Theorem main_leaves_other_files (config : Config) (fuel : nat) (w : World) :
  (forall q,
      q <> FILE_PATH config ->
      q ∉ [WEB_BIN config; BOT_BIN config; PHP_BIN config; NPM_BIN config] ->
      fs (main config fuel w).2 !! q = fs w !! q) /\
  (forall environ,
      Config_new environ = Ok config ->
      forall q,
        q ∈ [SUB_FILE config; LIST_FILE config; CONFIG_FILE config;
             BOOT_LOG_FILE config] ->
        fs (main config fuel w).2 !! q = fs w !! q).
Proof.
  split.
  - intros q Hq Hbins. by apply (main_frame config fuel q).
  - intros environ Hc q Hin.
    pose proof (Config_new_derived _ _ Hc) as Hd.
    unfold derived_paths in Hd.
    repeat match goal with
           | H : Forall _ (_ :: _) |- _ => apply Forall_cons in H as [? H]
           end.
    simpl in *.
    assert (exists name, q = mkPath (p_root (FILE_PATH config))
                               (p_segs (FILE_PATH config) ++ [name]) /\
                         name ∈ ["sub.txt"; "list.txt"; "config.json"; "boot.log"])
      as (name & -> & Hname).
    { rewrite !elem_of_cons, elem_of_nil in Hin.
      destruct Hin as [-> | [-> | [-> | [-> | []]]]]; eexists;
        (split; [eassumption |]); rewrite !elem_of_cons; tauto. }
    apply (main_frame config fuel); [apply derived_ne_parent |].
    repeat match goal with H : _ = mkPath _ _ |- _ => rewrite H; clear H end.
    rewrite !not_elem_of_cons. repeat split; try apply not_elem_of_nil;
      intros [= Heq]; apply app_inv_head in Heq; injection Heq as ->;
      rewrite !elem_of_cons, elem_of_nil in Hname;
      destruct Hname as [? | [? | [? | [? | []]]]]; discriminate.
Qed.

Lemma main_leaves_other_files_witness :
  fs (main default_config 2 world_plain).2 !! PurePath.of_str ".cache/config.json"
  = None /\
  fs (main default_config 2 world_plain).2 !! PurePath.of_str "home/notes.txt"
  = None.
Proof.
  destruct (main_leaves_other_files default_config 2 world_plain) as [Hany Hdata].
  assert (Config_new ∅ = Ok default_config) as Hdef by reflexivity.
  split.
  - rewrite (Hdata ∅ Hdef); [reflexivity |].
    apply list_elem_of_In. vm_compute. tauto.
  - rewrite Hany; [reflexivity | discriminate |].
    rewrite !not_elem_of_cons. repeat split; try apply not_elem_of_nil;
      discriminate.
Defined.

(** ** Reading back a printed integer *)














